(** * RV-Optimization: the Doppler model, its Kepler solver and the fitting glue

    A shallow embedding of [dopplerlib] (decorators.py, problem_of_the_kepler.py,
    optimization.py, observations_data.py).

    Numbers are IEEE binary64 values ([float], the kernel's primitive floats):
    the source computes on [numpy.float64] scalars and arrays.  The arithmetic
    [+ - * /], [sqrt], [abs] and the comparisons are the primitive ones.  The
    transcendental functions and the other routines of numpy and of the C
    library are not code of the repository: the development is parametric in
    them (class [Numpy]).

    The orbital parameters are taken to be [numpy.float64] values, as the
    optimizers pass them: a division by zero yields an infinity or NaN (with
    a warning), where two plain Python floats would raise.  Times and
    results are a scalar or a one-dimensional array.

    Python exceptions are values ([Raise]); a [while] loop gets a bound on the
    number of times its body may run ([fuel]), and [Diverge] is the answer of a
    loop that is still running when the bound is reached. *)

From Stdlib Require Import ZArith List Bool Lia.
From Stdlib Require Import Permutation Sorted.
From Stdlib Require Import Floats.
Import ListNotations.

Set Warnings "-inexact-float".
Local Open Scope float_scope.

(** ** Results of Python calls *)

Inductive exn : Type :=
| TypeError
| ValueError
| IndexError
| OverflowError
| ZeroDivisionError
| AssertionError.

Inductive result (A : Type) : Type :=
| Ret (a : A)
| Raise (e : exn)
| Diverge.

Arguments Ret {A} a.
Arguments Raise {A} e.
Arguments Diverge {A}.

Definition bind {A B : Type} (m : result A) (k : A -> result B) : result B :=
  match m with
  | Ret a => k a
  | Raise e => Raise e
  | Diverge => Diverge
  end.

Notation "x <- m ;; k" := (bind m (fun x => k))
  (at level 61, m at next level, right associativity).

Definition fmap {A B : Type} (f : A -> B) (m : result A) : result B :=
  x <- m ;; Ret (f x).

Fixpoint mapM {A B : Type} (f : A -> result B) (l : list A) : result (list B) :=
  match l with
  | [] => Ret []
  | a :: l' => b <- f a ;; bs <- mapM f l' ;; Ret (b :: bs)
  end.

(** ** Python sequences: slices, indexing, [xrange] *)

Module Py.

(** An index of a slice, clamped the way [list.__getitem__] does it:
    a negative index counts from the end. *)
Definition clamp (len i : Z) : Z :=
  if (i <? 0)%Z then Z.max (i + len) 0 else Z.min i len.

(** [l[start:stop]]; [None] is an omitted end. *)
Definition slice {A : Type} (start stop : option Z) (l : list A) : list A :=
  let len := Z.of_nat (length l) in
  let lo := match start with None => 0%Z | Some i => clamp len i end in
  let hi := match stop with None => len | Some j => clamp len j end in
  firstn (Z.to_nat (hi - lo)) (skipn (Z.to_nat lo) l).

(** [l[i]]: a negative index counts from the end, and an index outside
    the list raises [IndexError]. *)
Definition getitem {A : Type} (l : list A) (i : Z) : result A :=
  let len := Z.of_nat (length l) in
  let j := if (i <? 0)%Z then (i + len)%Z else i in
  if (j <? 0)%Z then Raise IndexError
  else match nth_error l (Z.to_nat j) with
       | Some a => Ret a
       | None => Raise IndexError
       end.

(** [xrange(start, stop, step)] for a positive step. *)
Definition xrange3 (start stop step : Z) : list Z :=
  map (fun k => (start + step * Z.of_nat k)%Z)
      (seq 0 (Z.to_nat ((stop - start + step - 1) / step))).

(** [xrange(n)]. *)
Definition xrange (n : Z) : list Z := xrange3 0 n 1.

End Py.

(** ** numpy: what the source takes from the library *)

(** The routines of numpy and of libm that the source calls and that are not
    exact IEEE operations.  [np_mod] is [numpy.mod], [np_mean] is
    [numpy.mean], [py_pow] is the [**] of two Python floats (C's [pow]). *)
Class Numpy : Type := {
  np_sin : float -> float;
  np_cos : float -> float;
  np_tan : float -> float;
  np_arctan : float -> float;
  np_mod : float -> float -> float;
  np_mean : list float -> float;
  py_pow : float -> float -> float
}.

(** [numpy.pi]. *)
Definition np_pi : float := 0x1.921fb54442d18p+1.

(** What a numeric argument or result is: one [numpy.float64] (or Python
    float), or a one-dimensional array of them. *)
Inductive ndarray : Type :=
| Scalar (x : float)
| Array (xs : list float).

(** A function applied to a scalar, or elementwise to an array. *)
Definition ufunc (f : float -> float) (v : ndarray) : ndarray :=
  match v with
  | Scalar x => Scalar (f x)
  | Array xs => Array (map f xs)
  end.

(** Elementwise combination of two arrays of one length. *)
Fixpoint zip_with (f : float -> float -> float) (xs ys : list float) : list float :=
  match xs, ys with
  | x :: xs', y :: ys' => f x y :: zip_with f xs' ys'
  | _, _ => []
  end.

(** A binary operator with numpy's broadcasting: a scalar, or an array of one
    element, is stretched over the other operand; two arrays of different
    lengths (neither of length one) raise [ValueError]. *)
Definition broadcast (f : float -> float -> float) (a b : ndarray) : result ndarray :=
  match a, b with
  | Scalar x, Scalar y => Ret (Scalar (f x y))
  | Scalar x, Array ys => Ret (Array (map (f x) ys))
  | Array xs, Scalar y => Ret (Array (map (fun x => f x y) xs))
  | Array xs, Array ys =>
      if Nat.eqb (length xs) (length ys) then Ret (Array (zip_with f xs ys))
      else match xs, ys with
           | [x], _ => Ret (Array (map (f x) ys))
           | _, [y] => Ret (Array (map (fun x => f x y) xs))
           | _, _ => Raise ValueError
           end
  end.

Definition nd_add : ndarray -> ndarray -> result ndarray := broadcast PrimFloat.add.
Definition nd_sub : ndarray -> ndarray -> result ndarray := broadcast PrimFloat.sub.
Definition nd_div : ndarray -> ndarray -> result ndarray := broadcast PrimFloat.div.

(** [len(v)]: a scalar has no length. *)
Definition len (v : ndarray) : result nat :=
  match v with
  | Scalar _ => Raise TypeError
  | Array xs => Ret (length xs)
  end.

(** ** decorators.py *)

(** A bound is a pair [(min, max)]; [None] is no bound on that side. *)
Definition bound : Type := (option float * option float)%type.

(** [check_the_single_bound(value, bound)].  [value] is [None] when Python 2's
    [map] has padded the shorter argument list: there [min_value <= None] is
    false and [max_value >= None] is true (None sorts before every number). *)
Definition check_the_single_bound (value : option float) (b : bound) : bool :=
  let (min_value, max_value) := b in
  (match min_value with
   | None => true
   | Some lo => match value with Some v => lo <=? v | None => false end
   end)
  &&
  (match max_value with
   | None => true
   | Some hi => match value with Some v => v <=? hi | None => true end
   end).

(** [map(check_the_single_bound, arguments[offset:], bounds)] as Python 2
    evaluates it: the shorter list is padded with [None]; unpacking a padded
    bound ([min_value, max_value = None]) raises [TypeError]. *)
Fixpoint map_check (values : list float) (bounds : list bound) : result (list bool) :=
  match values, bounds with
  | [], [] => Ret []
  | v :: values', b :: bounds' =>
      rest <- map_check values' bounds' ;;
      Ret (check_the_single_bound (Some v) b :: rest)
  | [], b :: bounds' =>
      rest <- map_check [] bounds' ;;
      Ret (check_the_single_bound None b :: rest)
  | _ :: _, [] => Raise TypeError
  end.

Definition all (bs : list bool) : bool := forallb (fun b => b) bs.

(** [check_the_bounds_of_arguments(bounds, offset=1, out_of_bound_value)]
    applied to [function]: the wrapper [function_wrapper].  Both
    decorated functions of the source use [offset = 1]: [arguments[0]] is the
    time and [arguments[1:]] are the scalar parameters the bounds are for. *)
Definition check_the_bounds_of_arguments
    (bounds : list bound) (out_of_bound_value : float)
    (function : ndarray -> list float -> result ndarray)
    (time : ndarray) (parameters : list float) : result ndarray :=
  checks <- map_check parameters bounds ;;
  if all checks then function time parameters
  else n <- len time ;; Ret (Array (repeat out_of_bound_value n)).

(** The default of [out_of_bound_value]. *)
Definition out_of_bound_default : float := 1e+10.

(** ** problem_of_the_kepler.py *)

Section Kepler.

Context {np : Numpy}.

Definition two_pi : float := 2 * np_pi.

(** The default of [epsilon]. *)
Definition epsilon_default : float := 1.0e-10.

(** The local functions of [kepler_equation_solver]; [mean_anomaly] is the
    reduced anomaly they close over. *)
Definition kepler_function (mean_anomaly orbital_eccentricity anomaly : float) : float :=
  mean_anomaly - anomaly + orbital_eccentricity * np_sin anomaly.

Definition kepler_function_derivative (orbital_eccentricity anomaly : float) : float :=
  orbital_eccentricity * np_cos anomaly - 1.0.

(** The loop test [numpy.abs(kepler_function(E)) >= epsilon]. *)
Definition keep_iterating (mean_anomaly orbital_eccentricity epsilon E : float) : bool :=
  epsilon <=? abs (kepler_function mean_anomaly orbital_eccentricity E).

(** The loop body [E += -kepler_function(E) / kepler_function_derivative(E)]. *)
Definition newton_step (mean_anomaly orbital_eccentricity E : float) : float :=
  E + (- kepler_function mean_anomaly orbital_eccentricity E)
      / kepler_function_derivative orbital_eccentricity E.

(** The [while] loop; [fuel] bounds the number of times the body runs. *)
Fixpoint kepler_loop (fuel : nat) (mean_anomaly orbital_eccentricity epsilon E : float)
  : result float :=
  if keep_iterating mean_anomaly orbital_eccentricity epsilon E then
    match fuel with
    | O => Diverge
    | S fuel' =>
        kepler_loop fuel' mean_anomaly orbital_eccentricity epsilon
                    (newton_step mean_anomaly orbital_eccentricity E)
    end
  else Ret E.

Definition kepler_equation_solver (fuel : nat)
    (mean_anomaly orbital_eccentricity epsilon : float) : result float :=
  let mean_anomaly := np_mod mean_anomaly two_pi in
  let eccentric_anomaly := mean_anomaly in
  kepler_loop fuel mean_anomaly orbital_eccentricity epsilon eccentric_anomaly.

(** [numpy.vectorize(kepler_equation_solver)]: the scalar solver on every
    element, in order; [vectorize] refuses an input of size 0. *)
Definition multi_kepler_equation_solver (fuel : nat)
    (mean_anomaly_list : list float) (orbital_eccentricity epsilon : float)
  : result (list float) :=
  match mean_anomaly_list with
  | [] => Raise ValueError
  | _ => mapM (fun m => kepler_equation_solver fuel m orbital_eccentricity epsilon)
              mean_anomaly_list
  end.

(** The eccentric anomaly of a scalar or of an array of mean anomalies
    (the [isinstance(mean_anomaly, collections.Iterable)] branch). *)
Definition solve_anomaly (fuel : nat) (mean_anomaly : ndarray) (eccentricity : float)
  : result ndarray :=
  match mean_anomaly with
  | Array ms =>
      fmap Array (multi_kepler_equation_solver fuel ms eccentricity epsilon_default)
  | Scalar m =>
      fmap Scalar (kepler_equation_solver fuel m eccentricity epsilon_default)
  end.

(** The body of [doppler_solver], below its decorator. *)
Definition doppler_solver_body (fuel : nat) (time : ndarray)
    (time_of_perihelion_passage half_amplitude_of_the_signal
     longitude_of_the_perihelion orbital_period eccentricity : float)
  : result ndarray :=
  let orbital_period := 2 * np_pi / orbital_period in
  let mean_anomaly :=
    ufunc (fun t => np_mod (orbital_period * (t - time_of_perihelion_passage)) two_pi)
          time in
  eccentric_anomaly <- solve_anomaly fuel mean_anomaly eccentricity ;;
  let true_anomaly :=
    ufunc (fun E => 2.0 * np_arctan (sqrt ((1.0 + eccentricity) / (1.0 - eccentricity))
                                     * np_tan (E / 2.0)))
          eccentric_anomaly in
  let radial_velocity :=
    ufunc (fun v => half_amplitude_of_the_signal
                    * (np_cos (longitude_of_the_perihelion + v)
                       + eccentricity * np_cos longitude_of_the_perihelion))
          true_anomaly in
  Ret radial_velocity.

(** The call of the decorated function on the unpacked arguments: it binds
    exactly five parameters. *)
Definition doppler_solver_call (fuel : nat) (time : ndarray) (parameters : list float)
  : result ndarray :=
  match parameters with
  | [tau; K; omega; P; ecc] => doppler_solver_body fuel time tau K omega P ecc
  | _ => Raise TypeError
  end.

Definition doppler_solver_bounds : list bound :=
  [ (Some 0, None); (Some 0, None); (Some 0, Some two_pi); (Some 0, None); (Some 0, Some 1) ].

(** [doppler_solver], decorated. *)
Definition doppler_solver (fuel : nat) : ndarray -> list float -> result ndarray :=
  check_the_bounds_of_arguments doppler_solver_bounds out_of_bound_default
                                (doppler_solver_call fuel).

(** The body of [doppler_solver_for_circular_orbit]. *)
Definition doppler_solver_for_circular_orbit_body (fuel : nat) (time : ndarray)
    (time_of_perihelion_passage half_amplitude_of_the_signal orbital_period : float)
  : result ndarray :=
  let mean_anomaly :=
    ufunc (fun t => np_mod (orbital_period * (t - time_of_perihelion_passage)) two_pi)
          time in
  eccentric_anomaly <- solve_anomaly fuel mean_anomaly 0.00 ;;
  let true_anomaly :=
    ufunc (fun E => 2.0 * np_arctan (np_tan (E / 2.0))) eccentric_anomaly in
  let radial_velocity :=
    ufunc (fun v => half_amplitude_of_the_signal * np_cos v) true_anomaly in
  Ret radial_velocity.

Definition doppler_solver_for_circular_orbit_call (fuel : nat) (time : ndarray)
    (parameters : list float) : result ndarray :=
  match parameters with
  | [tau; K; P] => doppler_solver_for_circular_orbit_body fuel time tau K P
  | _ => Raise TypeError
  end.

Definition circular_orbit_bounds : list bound :=
  [ (Some 0, None); (Some 0, None); (Some 0, None) ].

Definition doppler_solver_for_circular_orbit (fuel : nat)
  : ndarray -> list float -> result ndarray :=
  check_the_bounds_of_arguments circular_orbit_bounds out_of_bound_default
                                (doppler_solver_for_circular_orbit_call fuel).

(** Python's [sum] over a generator: [0 + t0 + t1 + ...], each term computed
    when it is asked for. *)
Definition py_sum (terms : list (result ndarray)) : result ndarray :=
  fold_left (fun acc term => a <- acc ;; d <- term ;; nd_add a d) terms (Ret (Scalar 0)).

(** [numpy.sum] of a generator is Python's [sum]. *)
Definition doppler_solver_for_n_planets (fuel : nat) (number_of_planets : Z)
    (time : ndarray) (orbital_parameters : list float) : result ndarray :=
  py_sum (map (fun i => doppler_solver fuel time
                          (Py.slice (Some i) (Some (i + 5)%Z) orbital_parameters))
              (Py.xrange3 0 (5 * number_of_planets) 5)).

End Kepler.

(** ** Numbers: Python ints and floats *)

(** [x] is a number: it is not NaN. *)
Definition is_number (x : float) : Prop := Prim2SF x <> S754_nan.

(** [x] is a zero or a finite non-zero number. *)
Definition finite (x : float) : Prop :=
  match Prim2SF x with
  | S754_zero _ | S754_finite _ _ _ => True
  | _ => False
  end.

(** A Python int as a float (the conversion an int operand of a float
    operation gets): the nearest binary64 value. *)
Definition float_of_Z (z : Z) : float :=
  SF2Prim (binary_normalize prec emax z 0 false).

(** [int(x)]: the integer part, towards zero; [int(nan)] raises
    [ValueError] and [int(inf)] raises [OverflowError]. *)
Definition int_of_float (x : float) : result Z :=
  match Prim2SF x with
  | S754_zero _ => Ret 0%Z
  | S754_finite s m e =>
      let magnitude := Z.shiftl (Zpos m) e in
      Ret (if s then (- magnitude)%Z else magnitude)
  | S754_infinity _ => Raise OverflowError
  | S754_nan => Raise ValueError
  end.

(** The range of a 64-bit integer, the element type of an array of Python
    ints. *)
Definition fits_int64 (i : Z) : bool := (- 2 ^ 63 <=? i)%Z && (i <? 2 ^ 63)%Z.

(** [numpy.vectorize(int)(values)].  An empty array is refused.  [int] is
    tried on the first value, and its result gives the element type of the
    answer; then [int] is applied to every value in turn and the results are
    stored with that type.  A first result in the range of a 64-bit integer
    makes it an array of such integers, which a result out of that range
    cannot enter ([OverflowError]).  A first result beyond that range gives
    a wider element type; there the development follows the integers as
    [int] gave them. *)
Definition vectorize_int (values : list float) : result (list Z) :=
  match values with
  | [] => Raise ValueError
  | first :: _ =>
      first_result <- int_of_float first ;;
      results <- mapM int_of_float values ;;
      if fits_int64 first_result && negb (forallb fits_int64 results)
      then Raise OverflowError
      else Ret results
  end.

(** ** observations_data.py *)

Module ObservationsData.

Record t : Type := mk {
  julian_times : list float;
  radial_velocities : list float;
  uncertainties : list float;
  ids_of_telescopes : list Z;
  count : Z;
  telescopes_count : Z
}.

(** [__init__]: [count] is [len(julian_times)] and [telescopes_count] is
    [len(set(ids_of_telescopes))]. *)
Definition init (julian_times radial_velocities uncertainties : list float)
    (ids_of_telescopes : list Z) : t :=
  {| julian_times := julian_times;
     radial_velocities := radial_velocities;
     uncertainties := uncertainties;
     ids_of_telescopes := ids_of_telescopes;
     count := Z.of_nat (length julian_times);
     telescopes_count := Z.of_nat (length (nodup Z.eq_dec ids_of_telescopes)) |}.

(** [observation_data[:, column_id]] of a two-dimensional array given by
    its rows. *)
Definition column (observation_data : list (list float)) (column_id : nat)
  : result (list float) :=
  mapM (fun row => match nth_error row column_id with
                   | Some x => Ret x
                   | None => Raise IndexError
                   end)
       observation_data.

(** One step of a stable sort on keys compared with [<] only, as Python's
    [sorted] compares them: the new row goes before the first row whose key
    is not smaller than its own. *)
Fixpoint insert_row (key : float) (row : list float)
    (rows : list (float * list float)) : list (float * list float) :=
  match rows with
  | [] => [(key, row)]
  | (k, r) :: rows' =>
      if k <? key then (k, r) :: insert_row key row rows'
      else (key, row) :: rows
  end.

(** [sorted(observation_data, key=lambda row: row[0])]: the rows in the
    order of their times, rows of one time in their order in the file (the
    order Python's sort gives whenever the times are numbers). *)
Definition sorted_by_time (observation_data : list (list float))
  : result (list (list float)) :=
  keys <- column observation_data 0 ;;
  Ret (map snd (fold_right (fun kr acc => insert_row (fst kr) (snd kr) acc) []
                           (combine keys observation_data))).

(** The array [numpy.loadtxt(file_name)] makes of the lines of numbers of
    a file, with its default [ndmin=0]: an axis of length one is squeezed
    away.  One number alone is an array without dimensions; one line, or
    one column, is a one-dimensional array; so is the empty array of an
    empty file. *)
Inductive loaded : Type :=
| Unsized (value : float)
| Vector (values : list float)
| Matrix (rows : list (list float)).

(** [numpy.loadtxt(file_name)] on the lines of the file, each the list of
    its numbers; lines of different numbers of columns are refused. *)
Definition loadtxt (lines : list (list float)) : result loaded :=
  match lines with
  | [] => Ret (Vector [])
  | first :: rest =>
      if forallb (fun line => Nat.eqb (length line) (length first)) rest then
        match first, rest with
        | [value], [] => Ret (Unsized value)
        | _, [] => Ret (Vector first)
        | [_], _ :: _ => Ret (Vector (concat lines))
        | _, _ :: _ => Ret (Matrix lines)
        end
      else Raise ValueError
  end.

Section Load.

Context {np : Numpy}.

(** [load_data], from the lines of numbers of the file, with
    [convert_indexes_to_integers] at its default [True] (the datasets of
    this development hold integer ids) and no option passed on to
    [loadtxt].  [len] of an array without dimensions raises [TypeError]; on
    a one-dimensional array that is not empty, [row[0]] in the sort key and
    [observation_data[:, column_id]] both raise [IndexError]. *)
Definition load_data (lines : list (list float))
    (sort_observations scale_to_the_mean convert_kmps_to_mps
     scale_to_the_jitter : bool) (jitter_value : float) : result t :=
  observation_data <- loadtxt lines ;;
  match observation_data with
  | Unsized _ => Raise TypeError
  | Vector values =>
      if Nat.eqb (length values) 0 then Raise AssertionError else Raise IndexError
  | Matrix observation_data =>
      if Nat.eqb (length observation_data) 0 then Raise AssertionError
      else
        observation_data <-
          (if sort_observations then sorted_by_time observation_data
           else Ret observation_data) ;;
        julian_times <- column observation_data 0 ;;
        radial_velocities <- column observation_data 1 ;;
        uncertainties <- column observation_data 2 ;;
        ids_of_telescopes <- column observation_data 3 ;;
        let radial_velocities :=
          if scale_to_the_mean
          then let mean := np_mean radial_velocities in
               map (fun v => v - mean) radial_velocities
          else radial_velocities in
        let radial_velocities :=
          if convert_kmps_to_mps then map (fun v => v * 1000) radial_velocities
          else radial_velocities in
        let uncertainties :=
          if scale_to_the_jitter
          then map (fun u => sqrt (u * u + py_pow jitter_value 2)) uncertainties
          else uncertainties in
        ids_of_telescopes <- vectorize_int ids_of_telescopes ;;
        Ret (init julian_times radial_velocities uncertainties ids_of_telescopes)
  end.

(** [load_data(file_name)] with every option at its default. *)
Definition load_data_default (observation_data : list (list float)) : result t :=
  load_data observation_data true false false true 0.0.

End Load.

End ObservationsData.

(** ** optimization.py *)

Module DopplerOptimizationModel.

Record t : Type := mk {
  number_of_planets : Z;
  number_of_telescopes : Z;
  orbital_parameters : list float;
  parameters_uncertainties : option (list float);
  parameters_count : Z
}.

(** [__init__]: the parameters are copied into a list and counted. *)
Definition init (number_of_planets number_of_telescopes : Z)
    (orbital_parameters : list float)
    (parameters_uncertainties : option (list float)) : t :=
  {| number_of_planets := number_of_planets;
     number_of_telescopes := number_of_telescopes;
     orbital_parameters := orbital_parameters;
     parameters_uncertainties := parameters_uncertainties;
     parameters_count := Z.of_nat (length orbital_parameters) |}.

Definition get_orbital_parameters (self : t) (planet_number : Z) : list float :=
  Py.slice (Some (planet_number * 5)%Z) (Some ((planet_number + 1) * 5)%Z)
           (orbital_parameters self).

Definition get_offsets (self : t) : list float :=
  Py.slice (Some (- number_of_telescopes self)%Z) None (orbital_parameters self).

(** [self.parameters_uncertainties[...]]: [None] cannot be sliced. *)
Definition get_orbital_uncertainties (self : t) (planet_number : Z)
  : result (list float) :=
  match parameters_uncertainties self with
  | None => Raise TypeError
  | Some uncertainties =>
      Ret (Py.slice (Some (planet_number * 5)%Z) (Some ((planet_number + 1) * 5)%Z)
                    uncertainties)
  end.

Definition get_offsets_uncersainties (self : t) : result (list float) :=
  match parameters_uncertainties self with
  | None => Raise TypeError
  | Some uncertainties =>
      Ret (Py.slice (Some (- number_of_telescopes self)%Z) None uncertainties)
  end.

Definition split (self : t) : list t :=
  let offsets :=
    Py.slice (Some (- number_of_telescopes self)%Z) None (orbital_parameters self) in
  map (fun planet_id =>
         init 1 (number_of_telescopes self)
              (get_orbital_parameters self planet_id ++ offsets) None)
      (Py.xrange (number_of_planets self)).

(** [offsets_list[telescope_id]] for every id of the list. *)
Definition offsets_of_instruments (self : t) (list_of_telescopes : list Z)
  : result ndarray :=
  let offsets_list :=
    Py.slice (Some (- number_of_telescopes self)%Z) None (orbital_parameters self) in
  fmap Array (mapM (Py.getitem offsets_list) list_of_telescopes).

(** Python's [sum] of the elements of an array, from the int [0]; a scalar
    cannot be iterated over. *)
Definition sum_of (v : ndarray) : result (list float * float) :=
  match v with
  | Scalar _ => Raise TypeError
  | Array xs => Ret (xs, fold_left PrimFloat.add xs 0)
  end.

Section Methods.

Context {np : Numpy}.

Definition radial_velocities (fuel : nat) (self : t) (time_range : ndarray)
  : result ndarray :=
  doppler_solver_for_n_planets fuel (number_of_planets self) time_range
                               (orbital_parameters self).

Definition residues_array (fuel : nat) (self : t) (observations : ObservationsData.t)
  : result ndarray :=
  let observed_values := Array (ObservationsData.radial_velocities observations) in
  modeled_values <-
    radial_velocities fuel self (Array (ObservationsData.julian_times observations)) ;;
  offset_values <-
    offsets_of_instruments self (ObservationsData.ids_of_telescopes observations) ;;
  difference <- nd_sub modeled_values observed_values ;;
  nd_add difference offset_values.

(** [chi2_sum / (observations.count - self.parameters_count - 1)].  The sum
    of a non-empty array is a [numpy.float64]: the division is the IEEE
    one, whatever the divisor.  The sum of an empty array is the int [0],
    and the division is then Python 2's integer division. *)
Definition quality_of_the_fit (fuel : nat) (self : t)
    (observations : ObservationsData.t) : result float :=
  residues <- residues_array fuel self observations ;;
  ratios <- nd_div residues (Array (ObservationsData.uncertainties observations)) ;;
  squares_and_sum <- sum_of (ufunc (fun x => x * x) ratios) ;;
  let (squares, chi2_sum) := squares_and_sum in
  let degrees := (ObservationsData.count observations - parameters_count self - 1)%Z in
  match squares with
  | [] => if (degrees =? 0)%Z then Raise ZeroDivisionError else Ret 0
  | _ :: _ => Ret (chi2_sum / float_of_Z degrees)
  end.

(** The two functions [optimization_ojective_function_builder] returns:
    mode ["rv"] and mode ["chi2"]. *)
Definition multiplanetary_doppler_solver (fuel : nat)
    (number_of_planets number_of_telescopes : Z)
    (observations : ObservationsData.t)
    (julian_times : ndarray) (orbital_parameters : list float) : result ndarray :=
  let model := init number_of_planets number_of_telescopes orbital_parameters None in
  velocities <- radial_velocities fuel model julian_times ;;
  offsets <-
    offsets_of_instruments model (ObservationsData.ids_of_telescopes observations) ;;
  nd_add velocities offsets.

Definition multiplanetary_doppler_measurement (fuel : nat)
    (number_of_planets number_of_telescopes : Z)
    (observations : ObservationsData.t)
    (orbital_parameters : list float) : result float :=
  let model := init number_of_planets number_of_telescopes orbital_parameters None in
  quality_of_the_fit fuel model observations.

End Methods.

End DopplerOptimizationModel.

(** [scipy.optimize.curve_fit] as [gradient_optimization] calls it: the
    function to fit, [xdata], [ydata], [sigma], [p0] and [maxfev]; it returns
    the optimal parameters and their covariance matrix (its rows), or
    raises.  The optimizer is library code: the development is parametric
    in it. *)
Class Scipy : Type := {
  curve_fit :
    (ndarray -> list float -> result ndarray) ->
    list float -> list float -> list float -> list float -> Z ->
    result (list float * list (list float))
}.

(** [numpy.diagonal] of a matrix given by its rows: the entries [a[i][i]]. *)
Fixpoint diagonal_from (i : nat) (rows : list (list float)) : list float :=
  match rows with
  | [] => []
  | row :: rows' =>
      match nth_error row i with
      | Some x => x :: diagonal_from (S i) rows'
      | None => []
      end
  end.

Definition diagonal (rows : list (list float)) : list float := diagonal_from 0 rows.

Section Optimization.

Context {np : Numpy} {sp : Scipy}.

(** [numpy.diagonal(covariation_array) ** 2]: the power of an array by the
    int [2] is the elementwise square. *)
Definition gradient_optimization (fuel : nat)
    (number_of_planets number_of_telescopes : Z)
    (observations : ObservationsData.t) (initial_parameters : list float)
  : result DopplerOptimizationModel.t :=
  let doppler_function :=
    DopplerOptimizationModel.multiplanetary_doppler_solver
      fuel number_of_planets number_of_telescopes observations in
  fitted <-
    curve_fit doppler_function
              (ObservationsData.julian_times observations)
              (ObservationsData.radial_velocities observations)
              (ObservationsData.uncertainties observations)
              initial_parameters
              (500 * Z.of_nat (length initial_parameters))%Z ;;
  let (optimal_paramters, covariation_array) := fitted in
  let paramters_uncertainties := map (fun v => v * v) (diagonal covariation_array) in
  Ret (DopplerOptimizationModel.init number_of_planets number_of_telescopes
                                     optimal_paramters
                                     (Some paramters_uncertainties)).

End Optimization.

(** ** decorators.py: the memoizing and the parallel wrappers *)

(** What a dictionary asks of the values in its keys: whether a value can
    be hashed, and when two values make one key, which Python decides by
    [hash] and [==]: [1], [1.0] and [True] are one key, as are [0.0] and
    [-0.0].  On values that can be keys this is an equivalence. *)
Class DictKey (K : Type) : Type := {
  hashable : K -> bool;
  same_value : K -> K -> bool;
  same_value_refl : forall x, same_value x x = true;
  same_value_sym : forall x y, same_value x y = same_value y x;
  same_value_trans : forall x y z,
      same_value x y = true -> same_value y z = true -> same_value x z = true
}.

Section Cache.

(** The arguments of a cached function are values of a type [K] a
    dictionary can compare; the results are of any type [V]. *)
Context {K V : Type} {keys : DictKey K}.

(** The attributes [cache_the_results] hangs on the function. *)
Record memo : Type := mk_memo {
  cache : list (list K * V);
  calls : Z;
  jumps : Z
}.

(** The state [cache_the_results] sets up: an empty dictionary, no calls. *)
Definition memo_init : memo := {| cache := []; calls := 0; jumps := 0 |}.

(** Two tuples of arguments are one key: as many values, one by one the
    same. *)
Fixpoint same_key (arguments key : list K) : bool :=
  match arguments, key with
  | [], [] => true
  | x :: arguments', y :: key' => same_value x y && same_key arguments' key'
  | _, _ => false
  end.

(** [function.cache[arguments]], if the key is there. *)
Fixpoint cache_get (arguments : list K) (entries : list (list K * V)) : option V :=
  match entries with
  | [] => None
  | (key, value) :: entries' =>
      if same_key arguments key then Some value
      else cache_get arguments entries'
  end.

(** [function.cache[arguments] = value]: the entry of the key is replaced. *)
Definition cache_set (arguments : list K) (value : V)
    (entries : list (list K * V)) : list (list K * V) :=
  (arguments, value)
  :: filter (fun entry => negb (same_key arguments (fst entry))) entries.

(** [cached_function_wrapper] called on [arguments] in the state [m], answering with
    the result and the new state.  The call is counted first.  The test is
    [arguments in function.cache and arguments]: looking the tuple up hashes
    it, which raises [TypeError] when one of its values cannot be hashed,
    and an empty tuple is falsy. *)
Definition cached_function_wrapper (function : list K -> result V)
    (arguments : list K) (m : memo) : result V * memo :=
  let m := {| cache := cache m; calls := calls m + 1; jumps := jumps m |} in
  if forallb hashable arguments then
    match cache_get arguments (cache m), arguments with
    | Some value, _ :: _ =>
        (Ret value, {| cache := cache m; calls := calls m; jumps := jumps m + 1 |})
    | _, _ =>
        match function arguments with
        | Ret calculated_result =>
            (Ret calculated_result,
             {| cache := cache_set arguments calculated_result (cache m);
                calls := calls m; jumps := jumps m |})
        | failure => (failure, m)
        end
    end
  else (Raise TypeError, m).

(** A sequence of calls, one after the other. *)
Fixpoint cached_calls (function : list K -> result V)
    (argument_lists : list (list K)) (m : memo) : list (result V) * memo :=
  match argument_lists with
  | [] => ([], m)
  | arguments :: rest =>
      let (r, m') := cached_function_wrapper function arguments m in
      let (rs, m'') := cached_calls function rest m' in
      (r :: rs, m'')
  end.

End Cache.

Arguments memo : clear implicits.

Section Parallel.

(** The consecutive sections of the given sizes. *)
Fixpoint take_sections {A : Type} (sizes : list nat) (xs : list A) : list (list A) :=
  match sizes with
  | [] => []
  | size :: sizes' => firstn size xs :: take_sections sizes' (skipn size xs)
  end.

(** [numpy.array_split(x_array, sections)] of a one-dimensional array: with
    [q, r = divmod(len, sections)], [r] sections of [q + 1] elements and then
    [sections - r] of [q]; no sections is an error. *)
Definition array_split {A : Type} (xs : list A) (sections : nat) : result (list (list A)) :=
  match sections with
  | O => Raise ValueError
  | S _ =>
      let q := (length xs / sections)%nat in
      let r := (length xs mod sections)%nat in
      Ret (take_sections (repeat (S q) r ++ repeat q (sections - r)) xs)
  end.

(** The arrays of a list joined end to end; a scalar cannot be joined. *)
Fixpoint join_arrays (parts : list ndarray) : result (list float) :=
  match parts with
  | [] => Ret []
  | Scalar _ :: _ => Raise ValueError
  | Array xs :: parts' => rest <- join_arrays parts' ;; Ret (xs ++ rest)
  end.

(** [numpy.concatenate]: it needs at least one array. *)
Definition concatenate (parts : list ndarray) : result ndarray :=
  match parts with
  | [] => Raise ValueError
  | _ :: _ => fmap Array (join_arrays parts)
  end.

(** [parallel_execution_wrapper(x_array, *args)] for a pool of [pool_size]
    workers ([cpu_count() * 2]).  The pool's [map] answers with the results
    in the order of the parts; for a function without effects that is the
    list of the results. *)
Definition parallel_execution (pool_size : nat)
    (function : ndarray -> list float -> result ndarray)
    (x_array : list float) (args : list float) : result ndarray :=
  data_parts <- array_split x_array pool_size ;;
  results <- mapM (fun part_of_data => function (Array part_of_data) args) data_parts ;;
  concatenate results.

End Parallel.

(** ** optimization.py: the evolutional search *)

(** Python's [min] and [max] of an array: the first of the smallest
    (largest) elements as [<] ([>]) finds them; an empty array is an error. *)
Definition py_min (xs : list float) : result float :=
  match xs with
  | [] => Raise ValueError
  | x :: xs' => Ret (fold_left (fun m y => if y <? m then y else m) xs' x)
  end.

Definition py_max (xs : list float) : result float :=
  match xs with
  | [] => Raise ValueError
  | x :: xs' => Ret (fold_left (fun m y => if m <? y then y else m) xs' x)
  end.

(** [scipy.optimize.differential_evolution(func, bounds, popsize).x]: the
    best parameter vector found.  Library code, a parameter here. *)
Class ScipyGlobal : Type := {
  differential_evolution :
    (list float -> result float) -> list (float * float) -> Z -> result (list float)
}.

(** [a_list * n]: [n] copies, none for [n <= 0]. *)
Definition list_times {A : Type} (xs : list A) (n : Z) : list A :=
  concat (repeat xs (Z.to_nat n)).

(** [bounds_of_all_free_paramters] of [evolutional_optimization]. *)
Definition bounds_of_all_free_paramters
    (number_of_planets number_of_telescopes : Z) (observations : ObservationsData.t)
  : result (list (float * float)) :=
  first_time <- py_min (ObservationsData.julian_times observations) ;;
  last_time <- py_max (ObservationsData.julian_times observations) ;;
  largest <- py_max (ObservationsData.radial_velocities observations) ;;
  smallest <- py_min (ObservationsData.radial_velocities observations) ;;
  let doppler_parameters_bouns :=
    list_times [ (first_time, last_time);
                 (0, largest - smallest);
                 (0, 2 * np_pi);
                 (1, 2000);
                 (0.001, 0.999) ] number_of_planets in
  let telescope_offsets_bounds := list_times [ (-25, 25) ] number_of_telescopes in
  Ret (doppler_parameters_bouns ++ telescope_offsets_bounds).

Section Evolution.

Context {np : Numpy} {de : ScipyGlobal}.

Definition evolutional_optimization (fuel : nat)
    (number_of_planets number_of_telescopes : Z)
    (observations : ObservationsData.t) (population_size : Z)
  : result DopplerOptimizationModel.t :=
  bounds <- bounds_of_all_free_paramters number_of_planets number_of_telescopes
                                         observations ;;
  let doppler_function :=
    DopplerOptimizationModel.multiplanetary_doppler_measurement
      fuel number_of_planets number_of_telescopes observations in
  optimal_orbital_paramters <-
    differential_evolution doppler_function bounds population_size ;;
  Ret (DopplerOptimizationModel.init number_of_planets number_of_telescopes
                                     optimal_orbital_paramters None).

End Evolution.

(** ** An executable instance of the library

    For running the model on concrete inputs: sine, cosine and arctangent by
    their power series, [mod] by [x - floor(x / y) * y], the mean by a
    left-to-right sum, powers by repeated multiplication (integer exponents
    only).  It stands in for numpy in the examples below; the theorems about
    the source are proved for every instance. *)

Module Series.

(** The integer part of a finite float, towards minus infinity. *)
Definition floor (x : float) : float :=
  match Prim2SF x with
  | S754_finite s m e => float_of_Z (Z.shiftl (cond_Zopp s (Zpos m)) e)
  | _ => x
  end.

(** [term * (1 - x2/(k(k+1)) * (1 - x2/((k+2)(k+3)) * ...))], [n] factors. *)
Fixpoint alternating (n : nat) (k : float) (x2 : float) : float :=
  match n with
  | O => 1
  | S n' => 1 - x2 / (k * (k + 1)) * alternating n' (k + 2) x2
  end.

Definition sin (x : float) : float := x * alternating 14 2 (x * x).
Definition cos (x : float) : float := alternating 14 1 (x * x).
Definition tan (x : float) : float := sin x / cos x.

(** [1 - x2 * k/(k+2) * (1 - ...)], the series of [arctan x / x]. *)
Fixpoint arctan_series (n : nat) (k : float) (x2 : float) : float :=
  match n with
  | O => 1
  | S n' => 1 - x2 * (k / (k + 2)) * arctan_series n' (k + 2) x2
  end.

Definition halve_angle (x : float) : float := x / (1 + sqrt (1 + x * x)).

(** The arctangent of [x] for [abs x <= 1]. *)
Definition arctan_small (x : float) : float :=
  let y := halve_angle (halve_angle (halve_angle x)) in
  8 * (y * arctan_series 12 1 (y * y)).

(** Beyond [1], by [arctan x = +- pi/2 - arctan (1/x)]. *)
Definition arctan (x : float) : float :=
  if 1 <? abs x then
    (if 0 <? x then np_pi / 2 else - (np_pi / 2)) - arctan_small (1 / x)
  else arctan_small x.

Definition remainder (x y : float) : float := x - floor (x / y) * y.

Definition mean (xs : list float) : float :=
  fold_left PrimFloat.add xs 0 / float_of_Z (Z.of_nat (length xs)).

Definition pow (x y : float) : float :=
  match int_of_float y with
  | Ret n => if y =? float_of_Z n
             then Z.iter n (fun acc => acc * x) 1
             else nan
  | _ => nan
  end.

#[export] Instance numpy : Numpy := {
  np_sin := sin;
  np_cos := cos;
  np_tan := tan;
  np_arctan := arctan;
  np_mod := remainder;
  np_mean := mean;
  py_pow := pow
}.

End Series.

(** ** Notions the statements below use *)

(** The anomaly after [n] runs of the loop body of [kepler_equation_solver]. *)
Fixpoint newton_iterate {np : Numpy} (n : nat)
    (mean_anomaly orbital_eccentricity E : float) : float :=
  match n with
  | O => E
  | S n' =>
      newton_iterate n' mean_anomaly orbital_eccentricity
                     (newton_step mean_anomaly orbital_eccentricity E)
  end.

(** [x] is [+0.0] or [-0.0]. *)
Definition is_zero (x : float) : Prop := exists s, Prim2SF x = S754_zero s.

(** Two floats that are the same value, or two zeros (of any signs): what
    [==] cannot tell apart, with NaN taken as equal to NaN. *)
Definition same_number (x y : float) : Prop := x = y \/ (is_zero x /\ is_zero y).

Definition same_ndarray (a b : ndarray) : Prop :=
  match a, b with
  | Scalar x, Scalar y => same_number x y
  | Array xs, Array ys => Forall2 same_number xs ys
  | _, _ => False
  end.

(** The same outcome: the same exception, both still running, or results
    that are the same numbers. *)
Definition same_result (r1 r2 : result ndarray) : Prop :=
  match r1, r2 with
  | Ret a, Ret b => same_ndarray a b
  | Raise e1, Raise e2 => e1 = e2
  | Diverge, Diverge => True
  | _, _ => False
  end.

(** The eccentric anomaly [kepler_equation_solver(1.0, 0.5)] of the series
    instance, found after four runs of the loop body. *)
Definition kepler_example : float := 1.4987011335179374.

(** ** Inputs of the examples *)

(** The model and the six observations of the examples: one planet with an
    eccentricity out of its bounds and one instrument, six parameters. *)
Definition degenerate_model : DopplerOptimizationModel.t :=
  DopplerOptimizationModel.init 1 1 [0; 50; 0; 10; 1.5; 0] None.

Definition six_observations : ObservationsData.t :=
  ObservationsData.init [1; 2; 3; 4; 5; 6] [10; 20; 30; 20; 10; 0]
                        [1; 1; 2; 2; 1; 1] [0; 0; 0; 0; 0; 0]%Z.

Definition seven_observations : ObservationsData.t :=
  ObservationsData.init [1; 2; 3; 4; 5; 6; 7] [10; 20; 30; 20; 10; 0; 5]
                        [1; 1; 2; 2; 1; 1; 1] [0; 0; 0; 0; 0; 0; 0]%Z.

(** [sum((residues / uncertainties) ** 2)]. *)
Definition chi2_sum (residues uncertainties : list float) : float :=
  fold_left PrimFloat.add
            (map (fun x => x * x) (zip_with PrimFloat.div residues uncertainties)) 0.

(** A file of two rows, of the instruments 3 and 7. *)
Definition two_instruments : list (list float) :=
  [ [2450001.5; 12.5; 1.0; 7.0]; [2450000.5; -3.0; 2.0; 3.0] ].

(** A least-squares routine that answers with fixed parameters and a fixed
    covariance matrix, for the example below. *)
Definition fixed_fit : Scipy :=
  {| curve_fit := fun _ _ _ _ _ _ =>
       Ret ([1.5; -0.5], [[0.25; 0.125]; [0.125; 3.0]]) |}.

(** Whether the five parameters of [doppler_solver] are inside its bounds. *)
Definition within_doppler_bounds (tau K omega P ecc : float) : bool :=
  (0 <=? tau) && (0 <=? K) && ((0 <=? omega) && (omega <=? two_pi))
  && (0 <=? P) && ((0 <=? ecc) && (ecc <=? 1)).

(** The times are in ascending order. *)
Definition ascending (times : list float) : Prop :=
  Sorted (fun a b => (a <=? b) = true) times.

(** A row [load_data] can take: four columns at least, the fourth a finite
    number. *)
Definition loadable_row (row : list float) : Prop :=
  exists x, nth_error row 3 = Some x /\ finite x.

(** The instrument id of a row, where it has one that [int] converts, is in
    the range of a 64-bit integer. *)
Definition small_id (row : list float) : Prop :=
  forall x i, nth_error row 3 = Some x -> int_of_float x = Ret i -> fits_int64 i = true.

(** The cache agrees with the function: every stored result is the result
    of the function on the arguments that find it. *)
Definition cache_agrees {K V : Type} {keys : DictKey K}
    (function : list K -> result V) (m : memo K V) : Prop :=
  forall arguments value,
    cache_get arguments (cache m) = Some value ->
    function arguments = Ret value.

(** The function cannot tell apart two tuples of arguments that are one
    key. *)
Definition respects_keys {K V : Type} {keys : DictKey K}
    (function : list K -> result V) : Prop :=
  forall arguments arguments',
    same_key arguments arguments' = true -> function arguments = function arguments'.

(** The keys of values compared through a canonical form [canon], the
    values [can_hash] accepts being the ones that can be hashed. *)
Definition keys_by {K C : Type} (C_eq_dec : forall x y : C, {x = y} + {x <> y})
    (can_hash : K -> bool) (canon : K -> C) : DictKey K.
Proof.
  refine {| hashable := can_hash;
            same_value := fun x y => if C_eq_dec (canon x) (canon y) then true else false |}.
  - intros x. destruct (C_eq_dec (canon x) (canon x)); congruence.
  - intros x y. destruct (C_eq_dec (canon x) (canon y)), (C_eq_dec (canon y) (canon x));
      congruence.
  - intros x y z. destruct (C_eq_dec (canon x) (canon y)), (C_eq_dec (canon y) (canon z)),
      (C_eq_dec (canon x) (canon z)); congruence.
Defined.

(** Python ints as arguments: every int can be hashed, and two ints are
    one key when they are equal. *)
#[export] Instance Z_keys : DictKey Z := keys_by Z.eq_dec (fun _ => true) (fun i => i).

(** Arguments of several types for the examples: ints and bools, which
    are one key when their numbers are equal ([True == 1]), and lists of
    ints, which cannot be hashed. *)
Inductive argument : Type :=
| PyInt (i : Z)
| PyBool (b : bool)
| PyList (items : list Z).

Definition number_or_items (a : argument) : Z + list Z :=
  match a with
  | PyInt i => inl i
  | PyBool b => inl (if b then 1 else 0)%Z
  | PyList items => inr items
  end.

Definition number_or_items_eq_dec (x y : Z + list Z) : {x = y} + {x <> y}.
Proof. decide equality; [apply Z.eq_dec | apply (list_eq_dec Z.eq_dec)]. Defined.

#[export] Instance argument_keys : DictKey argument :=
  keys_by number_or_items_eq_dec
          (fun a => match a with PyList _ => false | _ => true end)
          number_or_items.

(** A function of such arguments that depends on their numbers only, and
    one that tells a bool from an int. *)
Definition sum_of_numbers (arguments : list argument) : result Z :=
  Ret (fold_right Z.add 0%Z
         (map (fun a => match number_or_items a with
                        | inl i => i
                        | inr items => fold_right Z.add 0%Z items
                        end) arguments)).

Definition count_of_bools (arguments : list argument) : result Z :=
  Ret (Z.of_nat (length (filter (fun a => match a with PyBool _ => true | _ => false end)
                                arguments))).

(** A search that answers with the middle of its box, for the examples
    below. *)
Definition midpoint_search : ScipyGlobal :=
  {| differential_evolution := fun _ bounds _ =>
       Ret (map (fun b => (fst b + snd b) / 2) bounds) |}.



(** * Facts about binary64 arithmetic

    Proved from the specification of the primitive operations on
    [spec_float] (Stdlib's [FloatAxioms]). *)

Ltac to_spec :=
  rewrite ?leb_spec, ?ltb_spec, ?eqb_spec, ?abs_spec, ?opp_spec,
          ?add_spec, ?sub_spec, ?mul_spec, ?div_spec.

Section FloatFacts.

Lemma SFsub_diag (x : spec_float) :
  SF64sub x x = S754_zero false \/ SF64sub x x = S754_nan.
Proof.
  destruct x as [s|s| |s m e]; simpl.
  - left; destruct s; reflexivity.
  - right; destruct s; reflexivity.
  - right; reflexivity.
  - left. unfold SF64sub, SFsub. rewrite Z.sub_diag. reflexivity.
Qed.

Lemma SFmul_zero_l (y : spec_float) :
  (exists s, SF64mul (S754_zero false) y = S754_zero s)
  \/ SF64mul (S754_zero false) y = S754_nan.
Proof.
  destruct y as [s|s| |s m e]; simpl; eauto.
Qed.

Lemma SFeqb_refl (x : spec_float) : x <> S754_nan -> SFeqb x x = true.
Proof.
  unfold SFeqb. destruct x as [s|s| |s m e]; simpl; intros H;
    try reflexivity; try congruence.
  - destruct s; reflexivity.
  - destruct s; rewrite Z.compare_refl;
      change (Pos.compare_cont Eq m m) with (Pos.compare m m);
      rewrite Pos.compare_refl; reflexivity.
Qed.

Lemma is_nan_false (x : float) : is_nan x = false <-> is_number x.
Proof.
  unfold is_nan, is_number. rewrite eqb_spec. split.
  - intros H Hn. rewrite Hn in H. discriminate H.
  - intros H. rewrite SFeqb_refl by exact H. reflexivity.
Qed.

(** The residual of Kepler's equation at the initial guess, for
    eccentricity [0.0]: [m - m + 0.0 * s] is [+0] or NaN, whatever [m]
    and [s] are. *)
Lemma residual_zero_eccentricity (m s : float) :
  Prim2SF (m - m + 0 * s) = S754_zero false \/ Prim2SF (m - m + 0 * s) = S754_nan.
Proof.
  to_spec. change (Prim2SF 0) with (S754_zero false).
  destruct (SFsub_diag (Prim2SF m)) as [-> | ->];
    destruct (SFmul_zero_l (Prim2SF s)) as [[z ->] | ->];
    simpl; auto.
  destruct z; auto.
Qed.

(** A positive tolerance is never [<=] the magnitude of [+0] or of NaN. *)
Lemma tolerance_not_reached (eps r : float) :
  (0 <? eps) = true ->
  Prim2SF r = S754_zero false \/ Prim2SF r = S754_nan ->
  (eps <=? abs r) = false.
Proof.
  intros Heps Hr. revert Heps. to_spec.
  change (Prim2SF 0) with (S754_zero false).
  destruct Hr as [-> | ->]; simpl.
  - destruct (Prim2SF eps) as [s|s| |s m e]; simpl; try discriminate;
      destruct s; simpl; intros; try discriminate; reflexivity.
  - destruct (Prim2SF eps) as [s|s| |s m e]; reflexivity.
Qed.

(** [0.0 * s] is a zero when [s] is finite. *)
Lemma mul_zero_finite (s : float) :
  finite s -> exists z, Prim2SF (0 * s) = S754_zero z.
Proof.
  unfold finite. to_spec. change (Prim2SF 0) with (S754_zero false).
  destruct (Prim2SF s) as [z|z| |z m e]; simpl; intros H;
    try contradiction; eauto.
Qed.

(** With eccentricity [0.0] and the anomaly at [1.0], the residual is [+0]
    and the Newton update leaves the anomaly where it is. *)
Lemma newton_fixed_at_one (s c : float) :
  finite s -> finite c ->
  1 - 1 + 0 * s = 0 /\ 1 + (- (1 - 1 + 0 * s)) / (0 * c - 1.0) = 1.
Proof.
  intros Hs Hc.
  destruct (mul_zero_finite s Hs) as [zs Hzs].
  destruct (mul_zero_finite c Hc) as [zc Hzc].
  assert (Hr : 1 - 1 + 0 * s = 0).
  { apply Prim2SF_inj. rewrite add_spec, Hzs.
    destruct zs; reflexivity. }
  split; [exact Hr|].
  rewrite Hr. apply Prim2SF_inj.
  rewrite add_spec, div_spec, sub_spec, Hzc.
  destruct zc; reflexivity.
Qed.

End FloatFacts.

(** * The Kepler solver and the Doppler model *)

Section KeplerTheorems.

Context {np : Numpy}.

Lemma keep_iterating_false_at_return (fuel : nat) (M e eps E0 E : float) :
  kepler_loop fuel M e eps E0 = Ret E -> keep_iterating M e eps E = false.
Proof.
  revert E0. induction fuel as [|fuel IH]; intros E0; simpl;
    destruct (keep_iterating M e eps E0) eqn:Hk; intros H;
    try discriminate H.
  - injection H as <-. exact Hk.
  - eapply IH; eassumption.
  - injection H as <-. exact Hk.
Qed.

(** The loop returns the first iterate at which its test fails. *)
Lemma kepler_loop_returns (fuel : nat) (M e eps E0 E : float) :
  kepler_loop fuel M e eps E0 = Ret E <->
  exists n, (n <= fuel)%nat
            /\ E = newton_iterate n M e E0
            /\ keep_iterating M e eps E = false
            /\ forall k, (k < n)%nat ->
                         keep_iterating M e eps (newton_iterate k M e E0) = true.
Proof.
  revert E0. induction fuel as [|fuel IH]; intros E0; simpl;
    destruct (keep_iterating M e eps E0) eqn:Hk.
  - split; [discriminate|].
    intros (n & Hn & -> & Hf & _). replace n with O in Hf by lia.
    simpl in Hf. congruence.
  - split.
    + intros H; injection H as <-. exists O.
      repeat split; auto; intros k Hlt; lia.
    + intros (n & _ & -> & _ & Hall). destruct n as [|n]; [reflexivity|].
      specialize (Hall O ltac:(lia)). simpl in Hall. congruence.
  - rewrite IH. split.
    + intros (n & Hn & -> & Hf & Hall). exists (S n).
      repeat split; auto; [lia|].
      intros [|k] Hlt; simpl; [exact Hk | apply Hall; lia].
    + intros (n & Hn & -> & Hf & Hall). destruct n as [|n].
      * simpl in Hf. congruence.
      * exists n. repeat split; auto; [lia|].
        intros k Hlt. apply (Hall (S k)). lia.
  - split.
    + intros H; injection H as <-. exists O.
      repeat split; auto; [lia | intros k Hlt; lia].
    + intros (n & _ & -> & _ & Hall). destruct n as [|n]; [reflexivity|].
      specialize (Hall O ltac:(lia)). simpl in Hall. congruence.
Qed.

(** The loop is still running after [fuel] runs of its body exactly when
    its test held at every iterate so far. *)
Lemma kepler_loop_diverges (fuel : nat) (M e eps E0 : float) :
  kepler_loop fuel M e eps E0 = Diverge <->
  forall k, (k <= fuel)%nat ->
            keep_iterating M e eps (newton_iterate k M e E0) = true.
Proof.
  revert E0. induction fuel as [|fuel IH]; intros E0; simpl;
    destruct (keep_iterating M e eps E0) eqn:Hk.
  - split; [|reflexivity].
    intros _ k Hle. replace k with O by lia. exact Hk.
  - split; [discriminate|].
    intros H. specialize (H O ltac:(lia)). simpl in H. congruence.
  - rewrite IH. split.
    + intros H [|k] Hle; simpl; [exact Hk | apply H; lia].
    + intros H k Hle. apply (H (S k)). lia.
  - split; [discriminate|].
    intros H. specialize (H O ltac:(lia)). simpl in H. congruence.
Qed.

Lemma kepler_loop_never_raises (fuel : nat) (M e eps E0 : float) (x : exn) :
  kepler_loop fuel M e eps E0 <> Raise x.
Proof.
  revert E0. induction fuel as [|fuel IH]; intros E0; simpl;
    destruct (keep_iterating M e eps E0); try discriminate. apply IH.
Qed.

(** More fuel does not change what the loop returned. *)
Lemma kepler_loop_more_fuel (fuel extra : nat) (M e eps E0 E : float) :
  kepler_loop fuel M e eps E0 = Ret E ->
  kepler_loop (fuel + extra) M e eps E0 = Ret E.
Proof.
  revert E0. induction fuel as [|fuel IH]; intros E0; simpl;
    destruct (keep_iterating M e eps E0) eqn:Hk; intros H;
    try discriminate H.
  - destruct extra; simpl; rewrite Hk; exact H.
  - apply IH, H.
  - exact H.
Qed.

(** C4 (amended).  [kepler_equation_solver] has no bound on its iterations
    and no convergence-failure result.  Started at [E0], the mean anomaly
    reduced modulo 2 pi, it returns the Newton iterate [E_n] exactly when [n]
    is the first index at which the test [abs(f(E_n)) >= epsilon] is false
    (the body has then run [n] times); it is still running after any number
    of runs at every one of which the test held; and it raises nothing. *)
Theorem kepler_equation_solver_unbounded_loop (fuel : nat) (M e eps : float) :
  let M' := np_mod M two_pi in
  (forall E,
      kepler_equation_solver fuel M e eps = Ret E <->
      exists n, (n <= fuel)%nat
                /\ E = newton_iterate n M' e M'
                /\ keep_iterating M' e eps E = false
                /\ forall k, (k < n)%nat ->
                             keep_iterating M' e eps (newton_iterate k M' e M') = true)
  /\ (kepler_equation_solver fuel M e eps = Diverge <->
      forall k, (k <= fuel)%nat ->
                keep_iterating M' e eps (newton_iterate k M' e M') = true)
  /\ (forall x, kepler_equation_solver fuel M e eps <> Raise x).
Proof.
  intros M'. unfold kepler_equation_solver. fold M'.
  split; [|split].
  - intros E. apply kepler_loop_returns.
  - apply kepler_loop_diverges.
  - intros x. apply kepler_loop_never_raises.
Qed.

(** With eccentricity 0 and tolerance 0 the anomaly 1.0 is a fixed point of
    the loop body at which the loop test holds. *)
Lemma zero_tolerance_iterates (k : nat) :
  finite (np_sin 1) -> finite (np_cos 1) ->
  newton_iterate k 1 0 1 = 1 /\ keep_iterating 1 0 0 1 = true.
Proof.
  intros Hs Hc.
  destruct (newton_fixed_at_one (np_sin 1) (np_cos 1) Hs Hc) as [Hr Hstep].
  split.
  - induction k as [|k IH]; [reflexivity|].
    simpl. unfold newton_step, kepler_function, kepler_function_derivative.
    rewrite Hstep. exact IH.
  - unfold keep_iterating, kepler_function. rewrite Hr. reflexivity.
Qed.

Lemma zero_tolerance_diverges (fuel : nat) :
  np_mod 1 two_pi = 1 -> finite (np_sin 1) -> finite (np_cos 1) ->
  kepler_equation_solver fuel 1 0 0 = Diverge.
Proof.
  intros Hm Hs Hc. unfold kepler_equation_solver. rewrite Hm.
  apply kepler_loop_diverges. intros k _.
  destruct (zero_tolerance_iterates k Hs Hc) as [-> Hk]. exact Hk.
Qed.

(** The loop test fails at the initial guess when the eccentricity is 0. *)
Lemma zero_eccentricity_no_iteration (m : float) :
  keep_iterating m 0 epsilon_default m = false.
Proof.
  unfold keep_iterating, kepler_function.
  apply tolerance_not_reached; [reflexivity|].
  apply residual_zero_eccentricity.
Qed.

Lemma kepler_solver_zero_eccentricity (fuel : nat) (M : float) :
  kepler_equation_solver fuel M 0 epsilon_default = Ret (np_mod M two_pi).
Proof.
  unfold kepler_equation_solver.
  destruct fuel; simpl; rewrite zero_eccentricity_no_iteration; reflexivity.
Qed.

Lemma mapM_zero_eccentricity (fuel : nat) (ms : list float) :
  mapM (fun m => kepler_equation_solver fuel m 0 epsilon_default) ms
  = Ret (map (fun m => np_mod m two_pi) ms).
Proof.
  induction ms as [|m ms IH]; simpl; [reflexivity|].
  rewrite kepler_solver_zero_eccentricity. simpl. rewrite IH. reflexivity.
Qed.

(** C10.  With eccentricity 0.0, whatever the mean anomaly [M], the loop
    test is false at the initial guess (the residual there is [+0], or NaN
    when [M mod 2 pi] or its sine is not finite), so [kepler_equation_solver]
    returns [M mod 2 pi] after zero runs of the loop body; the circular-orbit
    model therefore computes its velocities from [E = M mod 2 pi], for a
    scalar time and for every element of a non-empty array of times. *)
Theorem circular_orbit_uses_reduced_mean_anomaly
    (fuel : nat) (M tau K P t : float) (ts : list float) :
  let E_of := fun t => np_mod (np_mod (P * (t - tau)) two_pi) two_pi in
  let V_of := fun t => K * np_cos (2.0 * np_arctan (np_tan (E_of t / 2.0))) in
  keep_iterating (np_mod M two_pi) 0 epsilon_default (np_mod M two_pi) = false
  /\ (Prim2SF (kepler_function (np_mod M two_pi) 0 (np_mod M two_pi)) = S754_zero false
      \/ Prim2SF (kepler_function (np_mod M two_pi) 0 (np_mod M two_pi)) = S754_nan)
  /\ kepler_equation_solver 0 M 0 epsilon_default = Ret (np_mod M two_pi)
  /\ kepler_equation_solver fuel M 0 epsilon_default = Ret (np_mod M two_pi)
  /\ doppler_solver_for_circular_orbit_body fuel (Scalar t) tau K P
     = Ret (Scalar (V_of t))
  /\ doppler_solver_for_circular_orbit_body fuel (Array (t :: ts)) tau K P
     = Ret (Array (map V_of (t :: ts))).
Proof.
  intros E_of V_of. repeat split.
  - apply zero_eccentricity_no_iteration.
  - apply residual_zero_eccentricity.
  - apply kepler_solver_zero_eccentricity.
  - apply kepler_solver_zero_eccentricity.
  - unfold doppler_solver_for_circular_orbit_body, solve_anomaly, fmap. simpl.
    rewrite kepler_solver_zero_eccentricity. reflexivity.
  - unfold doppler_solver_for_circular_orbit_body, solve_anomaly, fmap,
      multi_kepler_equation_solver.
    cbn [ufunc map]. rewrite <- (map_cons _ t ts).
    rewrite mapM_zero_eccentricity. cbn [bind ufunc map].
    rewrite !map_map. reflexivity.
Qed.

End KeplerTheorems.

(** * The bounds decorator and the sum of planets *)

Section DopplerTheorems.

Context {np : Numpy}.

(** A violated bound on an array of times: the sentinel, once per time, and
    the orbital pipeline is not run. *)
Lemma sentinel_on_violation (fuel : nat) (ts params : list float) (checks : list bool) :
  map_check params doppler_solver_bounds = Ret checks ->
  all checks = false ->
  doppler_solver fuel (Array ts) params
  = Ret (Array (repeat out_of_bound_default (length ts))).
Proof.
  intros Hc Ha. unfold doppler_solver, check_the_bounds_of_arguments.
  rewrite Hc. simpl. rewrite Ha. reflexivity.
Qed.

(** A violated bound on a scalar time: [len] of the scalar raises. *)
Lemma type_error_on_violation (fuel : nat) (t : float) (params : list float)
    (checks : list bool) :
  map_check params doppler_solver_bounds = Ret checks ->
  all checks = false ->
  doppler_solver fuel (Scalar t) params = Raise TypeError.
Proof.
  intros Hc Ha. unfold doppler_solver, check_the_bounds_of_arguments.
  rewrite Hc. simpl. rewrite Ha. reflexivity.
Qed.

Lemma eccentricity_check_fails (tau K omega P : float) :
  exists checks,
    map_check [tau; K; omega; P; 1.5] doppler_solver_bounds = Ret checks
    /\ all checks = false.
Proof.
  eexists. split; [reflexivity|].
  unfold all. cbn [forallb check_the_single_bound].
  change ((0 <=? 1.5) && (1.5 <=? 1)) with false.
  rewrite !andb_false_r. reflexivity.
Qed.

(** The scenario of the spec: eccentricity 1.5 on an array of five times. *)
Lemma sentinel_for_eccentricity_above_one
    (fuel : nat) (t1 t2 t3 t4 t5 tau K omega P : float) :
  doppler_solver fuel (Array [t1; t2; t3; t4; t5]) [tau; K; omega; P; 1.5]
  = Ret (Array [1e+10; 1e+10; 1e+10; 1e+10; 1e+10]).
Proof.
  destruct (eccentricity_check_fails tau K omega P) as (checks & Hc & Ha).
  rewrite (sentinel_on_violation fuel _ _ checks Hc Ha). reflexivity.
Qed.

(** C1 (the code at the failing input).  With a scalar time, which the
    model accepts when the bounds hold, a violated bound (here eccentricity
    1.5) makes the wrapper raise [TypeError] instead of returning the
    sentinel. *)
Theorem doppler_solver_scalar_time_violation
    (fuel : nat) (t tau K omega P : float) :
  doppler_solver fuel (Scalar t) [tau; K; omega; P; 1.5] = Raise TypeError.
Proof.
  destruct (eccentricity_check_fails tau K omega P) as (checks & Hc & Ha).
  exact (type_error_on_violation fuel t _ checks Hc Ha).
Qed.

(** [0 + x] is [x], but for [x = -0.0], where it is [+0.0]. *)
Lemma add_zero_same (x : float) : same_number (0 + x) x.
Proof.
  unfold same_number, is_zero.
  destruct (Prim2SF x) as [s|s| |s m e] eqn:Hx.
  - right. split; [|eauto]. exists false.
    rewrite add_spec, Hx. destruct s; reflexivity.
  - left. apply Prim2SF_inj. rewrite add_spec, Hx. reflexivity.
  - left. apply Prim2SF_inj. rewrite add_spec, Hx. reflexivity.
  - left. apply Prim2SF_inj. rewrite add_spec, Hx. reflexivity.
Qed.

Lemma add_zero_same_array (xs : list float) :
  Forall2 same_number (map (PrimFloat.add 0) xs) xs.
Proof.
  induction xs as [|x xs IH]; simpl; constructor; auto using add_zero_same.
Qed.

Lemma slice_first_five {A : Type} (p0 p1 p2 p3 p4 : A) (rest : list A) :
  Py.slice (Some 0%Z) (Some (0 + 5)%Z) (p0 :: p1 :: p2 :: p3 :: p4 :: rest)
  = [p0; p1; p2; p3; p4].
Proof.
  unfold Py.slice, Py.clamp.
  set (l := p0 :: p1 :: p2 :: p3 :: p4 :: rest).
  assert (Hlen : (5 <= Z.of_nat (length l))%Z) by (subst l; simpl length; lia).
  change (0 <? 0)%Z with false. change (0 + 5 <? 0)%Z with false. cbv iota.
  rewrite !Z.min_l by lia. reflexivity.
Qed.

(** The sum over one planet is [0 + doppler_solver(...)]. *)
Lemma n_planets_one (fuel : nat) (time : ndarray)
    (p0 p1 p2 p3 p4 : float) (rest : list float) :
  doppler_solver_for_n_planets fuel 1 time (p0 :: p1 :: p2 :: p3 :: p4 :: rest)
  = (d <- doppler_solver fuel time [p0; p1; p2; p3; p4] ;; nd_add (Scalar 0) d).
Proof.
  unfold doppler_solver_for_n_planets, py_sum.
  change (Py.xrange3 0 (5 * 1) 5) with [0%Z].
  cbn [map fold_left bind]. rewrite slice_first_five. reflexivity.
Qed.

(** C7.  For a scalar or an array of times and a parameter list of at least
    five values, [doppler_solver_for_n_planets(1, t, params)] and
    [doppler_solver(t, params[0], ..., params[4])] have the same outcome and
    the same numbers: they differ only where the single-body value is
    [-0.0], which the sum ([0 + value]) turns into [+0.0]. *)
Theorem n_planets_one_equals_doppler_solver (fuel : nat) (time : ndarray)
    (p0 p1 p2 p3 p4 : float) (rest : list float) :
  same_result
    (doppler_solver_for_n_planets fuel 1 time (p0 :: p1 :: p2 :: p3 :: p4 :: rest))
    (doppler_solver fuel time [p0; p1; p2; p3; p4]).
Proof.
  rewrite n_planets_one.
  destruct (doppler_solver fuel time [p0; p1; p2; p3; p4]) as [[x|xs]|e|]; simpl.
  - apply add_zero_same.
  - apply add_zero_same_array.
  - reflexivity.
  - exact I.
Qed.

End DopplerTheorems.

(** * Examples on the series instance *)

(** The solver run on [M = 1.0], [e = 0.5]: four runs of the loop body. *)
Example kepler_example_run :
  kepler_equation_solver (np := Series.numpy) 3 1 0.5 epsilon_default = Diverge
  /\ kepler_equation_solver (np := Series.numpy) 4 1 0.5 epsilon_default
     = Ret kepler_example.
Proof. split; vm_compute; reflexivity. Qed.

(** C4 (counterexample).  [kepler_equation_solver(1.0, 0.0, epsilon=0.0)]
    never returns and reports nothing: with a library for which
    [1.0 mod 2 pi] is [1.0] and the sine and cosine of [1.0] are finite, the
    residual is [0.0] at every iterate, [0.0 >= 0.0] holds, and the update
    adds [0.0]. *)
Lemma kepler_solver_zero_tolerance_never_returns :
  ~ exists (np : Numpy) (fuel : nat),
      np_mod 1 two_pi = 1 /\ finite (np_sin 1) /\ finite (np_cos 1)
      /\ kepler_equation_solver fuel 1 0 0 <> Diverge.
Proof.
  intros (np & fuel & Hm & Hs & Hc & H).
  apply H. apply zero_tolerance_diverges; assumption.
Qed.

(** The series instance is such a library. *)
Example zero_tolerance_on_series :
  np_mod (Numpy := Series.numpy) 1 two_pi = 1
  /\ finite (Series.sin 1) /\ finite (Series.cos 1)
  /\ kepler_equation_solver (np := Series.numpy) 1000 1 0 0 = Diverge.
Proof.
  assert (Hm : np_mod (Numpy := Series.numpy) 1 two_pi = 1) by (vm_compute; reflexivity).
  assert (Hs : finite (Series.sin 1)) by (vm_compute; exact I).
  assert (Hc : finite (Series.cos 1)) by (vm_compute; exact I).
  split; [exact Hm | split; [exact Hs | split; [exact Hc|]]].
  apply (zero_tolerance_diverges (np := Series.numpy)); assumption.
Qed.

(** * The composite model: slices of the flat parameter list *)

Section Slices.

Context {A : Type}.

Lemma firstn_add (a b : nat) (l : list A) :
  firstn (a + b) l = firstn a l ++ firstn b (skipn a l).
Proof.
  revert l. induction a as [|a IH]; intros l; [reflexivity|].
  destruct l as [|x l]; simpl.
  - destruct b; reflexivity.
  - rewrite IH. reflexivity.
Qed.

(** The chunks of five, in order, are the first [5 n] elements. *)
Lemma concat_chunks (n : nat) (l : list A) :
  concat (map (fun k => firstn 5 (skipn (5 * k) l)) (seq 0 n)) = firstn (5 * n) l.
Proof.
  induction n as [|n IH]; [reflexivity|].
  rewrite seq_S, map_app, concat_app, IH. cbn [map concat plus].
  rewrite app_nil_r, <- firstn_add. f_equal. lia.
Qed.

Lemma xrange_seq (n : Z) : Py.xrange n = map Z.of_nat (seq 0 (Z.to_nat n)).
Proof.
  unfold Py.xrange, Py.xrange3.
  replace ((n - 0 + 1 - 1) / 1)%Z with n by (rewrite Z.div_1_r; lia).
  apply map_ext. intros k. lia.
Qed.

(** [l[5k : 5(k+1)]] when the list holds the chunk. *)
Lemma slice_chunk (k : nat) (l : list A) :
  (5 * (k + 1) <= length l)%nat ->
  Py.slice (Some (Z.of_nat k * 5)%Z) (Some ((Z.of_nat k + 1) * 5)%Z) l
  = firstn 5 (skipn (5 * k) l).
Proof.
  intros Hlen. unfold Py.slice, Py.clamp.
  destruct (Z.ltb_spec (Z.of_nat k * 5) 0); [lia|].
  destruct (Z.ltb_spec ((Z.of_nat k + 1) * 5) 0); [lia|].
  rewrite !Z.min_l by lia.
  replace (Z.to_nat ((Z.of_nat k + 1) * 5 - Z.of_nat k * 5)) with 5%nat by lia.
  replace (Z.to_nat (Z.of_nat k * 5)) with (5 * k)%nat by lia.
  reflexivity.
Qed.

(** [l[-T:]] for [1 <= T <= len(l)]: the last [T] elements. *)
Lemma slice_trailing (T : Z) (l : list A) :
  (1 <= T <= Z.of_nat (length l))%Z ->
  Py.slice (Some (- T)%Z) None l = skipn (length l - Z.to_nat T) l.
Proof.
  intros HT. unfold Py.slice, Py.clamp.
  destruct (Z.ltb_spec (- T) 0); [|lia].
  rewrite Z.max_l by lia.
  replace (Z.to_nat (- T + Z.of_nat (length l))) with (length l - Z.to_nat T)%nat by lia.
  rewrite firstn_all2; [reflexivity|].
  rewrite length_skipn. lia.
Qed.

(** [l[-0:]] is [l[0:]]: the whole list. *)
Lemma slice_trailing_zero (l : list A) : Py.slice (Some (- 0)%Z) None l = l.
Proof.
  unfold Py.slice, Py.clamp. change (- 0 <? 0)%Z with false. cbv iota.
  rewrite Z.min_l by lia. simpl skipn.
  rewrite firstn_all2; [reflexivity|lia].
Qed.

End Slices.

(** C6.  A model built from a flat list of exactly [5 bodyCount +
    instrumentCount] parameters, with at least one instrument: the slices
    [get_orbital_parameters(0)], ..., [get_orbital_parameters(bodyCount - 1)],
    concatenated and followed by [get_offsets()], are the flat list. *)
Theorem accessors_round_trip (bodyCount instrumentCount : Z) (params : list float) :
  (0 <= bodyCount)%Z -> (1 <= instrumentCount)%Z ->
  Z.of_nat (length params) = (5 * bodyCount + instrumentCount)%Z ->
  let model := DopplerOptimizationModel.init bodyCount instrumentCount params None in
  concat (map (DopplerOptimizationModel.get_orbital_parameters model)
              (Py.xrange bodyCount))
  ++ DopplerOptimizationModel.get_offsets model
  = params.
Proof.
  intros Hn HT Hlen model.
  unfold DopplerOptimizationModel.get_offsets, DopplerOptimizationModel.get_orbital_parameters.
  subst model. cbn [DopplerOptimizationModel.orbital_parameters
                      DopplerOptimizationModel.number_of_telescopes
                      DopplerOptimizationModel.init].
  rewrite slice_trailing by lia.
  rewrite xrange_seq, map_map.
  rewrite (map_ext_in _ (fun k => firstn 5 (skipn (5 * k) params))).
  - rewrite concat_chunks.
    replace (length params - Z.to_nat instrumentCount)%nat
      with (5 * Z.to_nat bodyCount)%nat by lia.
    apply firstn_skipn.
  - intros k Hk. apply in_seq in Hk. apply slice_chunk. lia.
Qed.

Lemma accessors_round_trip_witness :
  let params := [0; 50; 1; 10; 0.25; 3; 20; 2; 100; 0.5; 1.5; -2.5] in
  let model := DopplerOptimizationModel.init 2 2 params None in
  concat (map (DopplerOptimizationModel.get_orbital_parameters model) (Py.xrange 2))
  ++ DopplerOptimizationModel.get_offsets model
  = params.
Proof.
  intros params.
  apply (accessors_round_trip 2 2 params); [lia | lia | reflexivity].
Defined.

(** C5 (the code at the failing input).  A model without instruments:
    [orbital_parameters[-0:]] is the whole list, so the sub-model [split]
    returns carries the body's five parameters twice. *)
Theorem split_without_instruments (tau K omega P e : float) :
  DopplerOptimizationModel.split
    (DopplerOptimizationModel.init 1 0 [tau; K; omega; P; e] None)
  = [DopplerOptimizationModel.init 1 0
       [tau; K; omega; P; e; tau; K; omega; P; e] None]
  /\ DopplerOptimizationModel.parameters_count
       (DopplerOptimizationModel.init 1 0
          [tau; K; omega; P; e; tau; K; omega; P; e] None) = 10%Z.
Proof. split; reflexivity. Qed.

(** * The quality of the fit *)

Section QualityTheorems.

Context {np : Numpy}.

(** C3 (amended).  [quality_of_the_fit] has no guard on the degrees of
    freedom: whenever the residuals are a non-empty array with one
    uncertainty each, it returns the IEEE quotient of the chi-square sum by
    [count - parameters_count - 1], whatever the sign of that number, and
    reports no condition of its own. *)
Theorem quality_of_the_fit_unguarded (fuel : nat)
    (model : DopplerOptimizationModel.t) (observations : ObservationsData.t)
    (r : float) (rs : list float) :
  DopplerOptimizationModel.residues_array fuel model observations = Ret (Array (r :: rs)) ->
  length (ObservationsData.uncertainties observations) = S (length rs) ->
  DopplerOptimizationModel.quality_of_the_fit fuel model observations
  = Ret (chi2_sum (r :: rs) (ObservationsData.uncertainties observations)
         / float_of_Z (ObservationsData.count observations
                       - DopplerOptimizationModel.parameters_count model - 1)).
Proof.
  intros Hres Hlen. unfold DopplerOptimizationModel.quality_of_the_fit.
  rewrite Hres. cbn [bind]. unfold nd_div, broadcast.
  destruct (ObservationsData.uncertainties observations) as [|u us] eqn:Hu;
    [discriminate Hlen|].
  cbn [length] in *. rewrite Hlen, Nat.eqb_refl.
  reflexivity.
Qed.

End QualityTheorems.

Lemma quality_of_the_fit_unguarded_witness :
  DopplerOptimizationModel.quality_of_the_fit (np := Series.numpy) 0
    degenerate_model six_observations
  = Ret (chi2_sum [9999999990; 9999999980; 9999999970; 9999999980; 9999999990; 10000000000]
                  [1; 1; 2; 2; 1; 1]
         / float_of_Z (6 - 6 - 1)).
Proof.
  apply (@quality_of_the_fit_unguarded Series.numpy 0 degenerate_model six_observations
           9999999990 [9999999980; 9999999970; 9999999980; 9999999990; 10000000000]);
    reflexivity.
Defined.

(** C3 (counterexample).  As many observations as parameters: the quotient
    by [-1] is returned, a negative number; one observation more: the
    quotient by [0], infinity.  No condition is reported.  (The parameters
    violate a bound, so the residuals do not depend on the library.) *)
Lemma quality_of_the_fit_divides_by_nonpositive :
  ObservationsData.count six_observations
  = DopplerOptimizationModel.parameters_count degenerate_model
  /\ (exists chi2 : float,
         (chi2 <? 0) = true
         /\ forall (np : Numpy) (fuel : nat),
             DopplerOptimizationModel.quality_of_the_fit fuel degenerate_model
                                                         six_observations
             = Ret chi2)
  /\ (forall (np : Numpy) (fuel : nat),
         DopplerOptimizationModel.quality_of_the_fit fuel degenerate_model
                                                     seven_observations
         = Ret infinity).
Proof.
  split; [reflexivity|]. split.
  - eexists. split; [|intros np fuel; vm_compute; reflexivity].
    vm_compute. reflexivity.
  - intros np fuel. vm_compute. reflexivity.
Qed.

(** The same with parameters inside their bounds, on the series instance:
    six observations of a six-parameter model give a negative statistic. *)
Example quality_of_the_fit_negative_on_series :
  exists chi2 : float,
    DopplerOptimizationModel.quality_of_the_fit
      (np := Series.numpy) 50
      (DopplerOptimizationModel.init 1 1 [0; 50; 0; 10; 0.25; 0] None)
      six_observations
    = Ret chi2
    /\ (chi2 <? 0) = true.
Proof. eexists. split; vm_compute; reflexivity. Qed.

(** * The observations: instrument ids *)

Section LoadTheorems.


Lemma mapM_length {A B : Type} (f : A -> result B) (l : list A) (l' : list B) :
  mapM f l = Ret l' -> length l' = length l.
Proof.
  revert l'. induction l as [|a l IH]; intros l'; simpl.
  - intros H; injection H as <-. reflexivity.
  - destruct (f a); try discriminate. cbn [bind].
    destruct (mapM f l) as [bs| |]; try discriminate. cbn [bind].
    intros H; injection H as <-. simpl. f_equal. apply IH. reflexivity.
Qed.





(** What [loadtxt] hands on as a two-dimensional array: the lines as
    they are, two of them at least. *)
Lemma loadtxt_matrix (lines rows : list (list float)) :
  ObservationsData.loadtxt lines = Ret (ObservationsData.Matrix rows) ->
  rows = lines /\ (2 <= length lines)%nat.
Proof.
  unfold ObservationsData.loadtxt.
  destruct lines as [|first rest]; [discriminate|].
  destruct (forallb _ rest); [|discriminate].
  destruct first as [|x [|y first]], rest as [|second rest]; intros H;
    try discriminate H; injection H as <-; split; try reflexivity; simpl; lia.
Qed.

(** The integers [numpy.vectorize(int)] returns are those of [int]. *)
Lemma vectorize_int_ret (values : list float) (ids : list Z) :
  vectorize_int values = Ret ids -> mapM int_of_float values = Ret ids.
Proof.
  unfold vectorize_int. destruct values as [|first values]; [discriminate|].
  destruct (int_of_float first) as [first_result| |]; try discriminate.
  cbn [bind].
  destruct (mapM int_of_float (first :: values)) as [results| |]; try discriminate.
  cbn [bind].
  destruct (fits_int64 first_result && negb (forallb fits_int64 results));
    [discriminate|]. intros H; exact H.
Qed.

Context {np : Numpy}.

(** [load_data] returns on a two-dimensional array only. *)
Lemma load_data_of_matrix (table : list (list float))
    (sort_observations scale_to_the_mean convert_kmps_to_mps scale_to_the_jitter : bool)
    (jitter_value : float) (observations : ObservationsData.t) :
  ObservationsData.load_data table sort_observations scale_to_the_mean
                             convert_kmps_to_mps scale_to_the_jitter jitter_value
  = Ret observations ->
  ObservationsData.loadtxt table = Ret (ObservationsData.Matrix table)
  /\ (2 <= length table)%nat.
Proof.
  unfold ObservationsData.load_data.
  destruct (ObservationsData.loadtxt table) as [[value|values|rows]| |] eqn:Hload;
    try discriminate; cbn [bind].
  - destruct (Nat.eqb (length values) 0); discriminate.
  - intros _. destruct (loadtxt_matrix _ _ Hload) as [-> Hlen].
    split; [reflexivity|exact Hlen].
Qed.


End LoadTheorems.



(** The ids of that dataset against the two offsets of a model. *)
Example offsets_of_unmapped_ids (o1 o2 : float) :
  DopplerOptimizationModel.offsets_of_instruments
    (DopplerOptimizationModel.init 0 2 [o1; o2] None) [3; 7]%Z
  = Raise IndexError.
Proof. reflexivity. Qed.

(** * The gradient refinement *)

Section OptimizationTheorems.

Context {np : Numpy} {sp : Scipy}.

(** C8.  When the least-squares fit returns parameters and a covariance
    matrix, [gradient_optimization] returns the model of these parameters
    whose uncertainties are, index by index, the squares of the diagonal of
    the covariance matrix. *)
Theorem gradient_optimization_squares_covariance_diagonal
    (fuel : nat) (number_of_planets number_of_telescopes : Z)
    (observations : ObservationsData.t) (initial_parameters : list float)
    (optimal : list float) (covariance : list (list float)) :
  curve_fit
    (DopplerOptimizationModel.multiplanetary_doppler_solver
       fuel number_of_planets number_of_telescopes observations)
    (ObservationsData.julian_times observations)
    (ObservationsData.radial_velocities observations)
    (ObservationsData.uncertainties observations)
    initial_parameters
    (500 * Z.of_nat (length initial_parameters))%Z
  = Ret (optimal, covariance) ->
  exists model uncertainties,
    gradient_optimization fuel number_of_planets number_of_telescopes
                          observations initial_parameters = Ret model
    /\ DopplerOptimizationModel.orbital_parameters model = optimal
    /\ DopplerOptimizationModel.parameters_uncertainties model = Some uncertainties
    /\ length uncertainties = length (diagonal covariance)
    /\ forall i v, nth_error (diagonal covariance) i = Some v ->
                   nth_error uncertainties i = Some (v * v).
Proof.
  intros Hfit. unfold gradient_optimization. rewrite Hfit. cbn [bind].
  eexists. eexists. split; [reflexivity|].
  cbn [DopplerOptimizationModel.orbital_parameters
       DopplerOptimizationModel.parameters_uncertainties
       DopplerOptimizationModel.init].
  split; [reflexivity|]. split; [reflexivity|].
  split; [apply length_map|].
  intros i v Hv. erewrite map_nth_error by exact Hv. reflexivity.
Qed.

End OptimizationTheorems.

Lemma gradient_optimization_witness :
  exists model uncertainties,
    gradient_optimization (np := Series.numpy) (sp := fixed_fit) 0 0 2
                          six_observations [0; 0] = Ret model
    /\ DopplerOptimizationModel.orbital_parameters model = [1.5; -0.5]
    /\ DopplerOptimizationModel.parameters_uncertainties model = Some uncertainties
    /\ length uncertainties = length (diagonal [[0.25; 0.125]; [0.125; 3.0]])
    /\ forall i v, nth_error (diagonal [[0.25; 0.125]; [0.125; 3.0]]) i = Some v ->
                   nth_error uncertainties i = Some (v * v).
Proof.
  apply (@gradient_optimization_squares_covariance_diagonal
           Series.numpy fixed_fit 0 0 2 six_observations [0; 0]
           [1.5; -0.5] [[0.25; 0.125]; [0.125; 3.0]]).
  reflexivity.
Defined.

(** The uncertainties of that example: [0.25 ** 2] and [3.0 ** 2]. *)
Example gradient_optimization_example :
  fmap DopplerOptimizationModel.parameters_uncertainties
       (gradient_optimization (np := Series.numpy) (sp := fixed_fit) 0 0 2
                              six_observations [0; 0])
  = Ret (Some [0.0625; 9]).
Proof. vm_compute. reflexivity. Qed.

(** * Splitting a model with instruments and summing the parts *)

Section SameNumbers.

Lemma same_number_refl (x : float) : same_number x x.
Proof. left. reflexivity. Qed.

Lemma same_ndarray_refl (a : ndarray) : same_ndarray a a.
Proof.
  destruct a as [x|xs]; simpl; [apply same_number_refl|].
  induction xs; constructor; auto using same_number_refl.
Qed.

Lemma same_result_refl (r : result ndarray) : same_result r r.
Proof. destruct r; simpl; auto using same_ndarray_refl. Qed.

Lemma add_zeros (x y : float) : is_zero x -> is_zero y -> is_zero (x + y).
Proof.
  unfold is_zero. intros [sx Hx] [sy Hy]. rewrite add_spec, Hx, Hy.
  destruct sx, sy; simpl; eauto.
Qed.

Lemma add_zero_r_same (x y y' : float) :
  is_zero y -> is_zero y' -> same_number (x + y) (x + y').
Proof.
  intros Hy Hy'. destruct (Prim2SF x) as [s|s| |s m e] eqn:Hx.
  - right. split; apply add_zeros; unfold is_zero; eauto.
  - left. destruct Hy as [sy Hy], Hy' as [sy' Hy'].
    apply Prim2SF_inj. rewrite !add_spec, Hx, Hy, Hy'. reflexivity.
  - left. destruct Hy as [sy Hy], Hy' as [sy' Hy'].
    apply Prim2SF_inj. rewrite !add_spec, Hx, Hy, Hy'. reflexivity.
  - left. destruct Hy as [sy Hy], Hy' as [sy' Hy'].
    apply Prim2SF_inj. rewrite !add_spec, Hx, Hy, Hy'. reflexivity.
Qed.

Lemma add_zero_l_same (x x' y : float) :
  is_zero x -> is_zero x' -> same_number (x + y) (x' + y).
Proof.
  intros Hx Hx'. destruct (Prim2SF y) as [s|s| |s m e] eqn:Hy.
  - right. split; apply add_zeros; unfold is_zero; eauto.
  - left. destruct Hx as [sx Hx], Hx' as [sx' Hx'].
    apply Prim2SF_inj. rewrite !add_spec, Hx, Hx', Hy. reflexivity.
  - left. destruct Hx as [sx Hx], Hx' as [sx' Hx'].
    apply Prim2SF_inj. rewrite !add_spec, Hx, Hx', Hy. reflexivity.
  - left. destruct Hx as [sx Hx], Hx' as [sx' Hx'].
    apply Prim2SF_inj. rewrite !add_spec, Hx, Hx', Hy. reflexivity.
Qed.

(** Addition cannot tell two zeros apart either. *)
Lemma add_same (x x' y y' : float) :
  same_number x x' -> same_number y y' -> same_number (x + y) (x' + y').
Proof.
  intros [-> | [Hx Hx']] [-> | [Hy Hy']].
  - apply same_number_refl.
  - apply add_zero_r_same; assumption.
  - apply add_zero_l_same; assumption.
  - right. split; apply add_zeros; assumption.
Qed.

Lemma map_add_same_l (x x' : float) (ys ys' : list float) :
  same_number x x' -> Forall2 same_number ys ys' ->
  Forall2 same_number (map (PrimFloat.add x) ys) (map (PrimFloat.add x') ys').
Proof.
  intros Hx H. induction H; simpl; constructor; auto using add_same.
Qed.

Lemma map_add_same_r (xs xs' : list float) (y y' : float) :
  Forall2 same_number xs xs' -> same_number y y' ->
  Forall2 same_number (map (fun x => x + y) xs) (map (fun x => x + y') xs').
Proof.
  intros H Hy. induction H; simpl; constructor; auto using add_same.
Qed.

Lemma zip_add_same (xs xs' ys ys' : list float) :
  Forall2 same_number xs xs' -> Forall2 same_number ys ys' ->
  Forall2 same_number (zip_with PrimFloat.add xs ys) (zip_with PrimFloat.add xs' ys').
Proof.
  intros H. revert ys ys'. induction H; intros ys ys' Hy; simpl; [constructor|].
  destruct Hy; simpl; constructor; auto using add_same.
Qed.

(** [+] on arrays gives the same outcome on the same numbers. *)
Lemma nd_add_same (a a' b b' : ndarray) :
  same_ndarray a a' -> same_ndarray b b' ->
  same_result (nd_add a b) (nd_add a' b').
Proof.
  destruct a as [x|xs], a' as [x'|xs'], b as [y|ys], b' as [y'|ys'];
    simpl; try contradiction; intros Ha Hb.
  - apply add_same; assumption.
  - apply map_add_same_l; assumption.
  - apply map_add_same_r; assumption.
  - rewrite <- (Forall2_length Ha), <- (Forall2_length Hb).
    destruct (Nat.eqb (length xs) (length ys)) eqn:Hlen; simpl.
    + apply zip_add_same; assumption.
    + destruct Ha as [|x x' xs1 xs1' Hx [|x2 x2' xs2 xs2' Hx2 Ha]];
        destruct Hb as [|y y' ys1 ys1' Hy [|y2 y2' ys2 ys2' Hy2 Hb]];
        simpl in *; try discriminate Hlen; try reflexivity;
        repeat (constructor; auto using add_same);
        auto using map_add_same_l, map_add_same_r.
Qed.

(** One step of Python's [sum]. *)
Lemma sum_step_same (acc acc' term term' : result ndarray) :
  same_result acc acc' -> same_result term term' ->
  same_result (a <- acc ;; d <- term ;; nd_add a d)
              (a <- acc' ;; d <- term' ;; nd_add a d).
Proof.
  destruct acc as [a|e|], acc' as [a'|e'|]; simpl; try contradiction; auto.
  destruct term as [d|e|], term' as [d'|e'|]; simpl; try contradiction; auto.
  intros Ha Hd. apply nd_add_same; assumption.
Qed.

Lemma sum_same (terms terms' : list (result ndarray)) (acc acc' : result ndarray) :
  Forall2 same_result terms terms' -> same_result acc acc' ->
  same_result
    (fold_left (fun acc term => a <- acc ;; d <- term ;; nd_add a d) terms acc)
    (fold_left (fun acc term => a <- acc ;; d <- term ;; nd_add a d) terms' acc').
Proof.
  intros H. revert acc acc'. induction H; intros acc acc' Hacc; simpl; [exact Hacc|].
  apply IHForall2. apply sum_step_same; assumption.
Qed.

(** [0 + d] has the outcome and the numbers of [d]. *)
Lemma zero_plus_same (d : result ndarray) :
  same_result (x <- d ;; nd_add (Scalar 0) x) d.
Proof.
  destruct d as [[x|xs]|e|]; simpl;
    auto using add_zero_same, add_zero_same_array.
Qed.

End SameNumbers.

Section SplitTheorems.

Context {np : Numpy}.

Lemma xrange3_by_five (n : Z) :
  (0 <= n)%Z ->
  Py.xrange3 0 (5 * n) 5 = map (fun k => (5 * Z.of_nat k)%Z) (seq 0 (Z.to_nat n)).
Proof.
  intros Hn. unfold Py.xrange3.
  replace ((5 * n - 0 + 5 - 1) / 5)%Z with n
    by (apply Z.div_unique with (r := 4%Z); lia).
  apply map_ext. intros k. lia.
Qed.

Lemma slice_chunk_by_five {A : Type} (k : nat) (l : list A) :
  (5 * (k + 1) <= length l)%nat ->
  Py.slice (Some (5 * Z.of_nat k)%Z) (Some (5 * Z.of_nat k + 5)%Z) l
  = firstn 5 (skipn (5 * k) l).
Proof.
  intros Hlen. rewrite <- (slice_chunk k l Hlen). f_equal; f_equal; lia.
Qed.

(** The velocities of a model: the sum over its chunks of five parameters. *)
Lemma radial_velocities_as_sum (fuel : nat) (n T : Z) (params : list float)
    (time : ndarray) :
  (0 <= n)%Z -> (5 * n <= Z.of_nat (length params))%Z ->
  DopplerOptimizationModel.radial_velocities
    fuel (DopplerOptimizationModel.init n T params None) time
  = py_sum (map (fun k => doppler_solver fuel time (firstn 5 (skipn (5 * k) params)))
                (seq 0 (Z.to_nat n))).
Proof.
  intros Hn Hlen.
  unfold DopplerOptimizationModel.radial_velocities, doppler_solver_for_n_planets.
  cbn [DopplerOptimizationModel.number_of_planets
       DopplerOptimizationModel.orbital_parameters DopplerOptimizationModel.init].
  rewrite xrange3_by_five by exact Hn. rewrite map_map. f_equal.
  apply map_ext_in. intros k Hk. apply in_seq in Hk.
  rewrite slice_chunk_by_five by lia. reflexivity.
Qed.

Lemma n_planets_one_chunk (fuel : nat) (time : ndarray) (chunk rest : list float) :
  length chunk = 5%nat ->
  doppler_solver_for_n_planets fuel 1 time (chunk ++ rest)
  = (d <- doppler_solver fuel time chunk ;; nd_add (Scalar 0) d).
Proof.
  intros Hlen.
  destruct chunk as [|p0 [|p1 [|p2 [|p3 [|p4 [|p5 chunk]]]]]]; try discriminate Hlen.
  apply n_planets_one.
Qed.

(** [split] on a model with at least one instrument. *)
Lemma split_as_chunks (n T : Z) (params : list float) :
  (0 <= n)%Z -> (1 <= T)%Z ->
  Z.of_nat (length params) = (5 * n + T)%Z ->
  DopplerOptimizationModel.split (DopplerOptimizationModel.init n T params None)
  = map (fun k => DopplerOptimizationModel.init
                    1 T (firstn 5 (skipn (5 * k) params)
                         ++ skipn (5 * Z.to_nat n) params) None)
        (seq 0 (Z.to_nat n)).
Proof.
  intros Hn HT Hlen. unfold DopplerOptimizationModel.split,
    DopplerOptimizationModel.get_orbital_parameters.
  cbn [DopplerOptimizationModel.number_of_planets
       DopplerOptimizationModel.number_of_telescopes
       DopplerOptimizationModel.orbital_parameters DopplerOptimizationModel.init].
  rewrite slice_trailing by lia.
  replace (length params - Z.to_nat T)%nat with (5 * Z.to_nat n)%nat by lia.
  rewrite xrange_seq, map_map. apply map_ext_in. intros k Hk. apply in_seq in Hk.
  rewrite slice_chunk by lia. reflexivity.
Qed.

Lemma Forall2_map_in {A B C : Type} (R : B -> C -> Prop)
    (f : A -> B) (g : A -> C) (l : list A) :
  (forall x, In x l -> R (f x) (g x)) -> Forall2 R (map f l) (map g l).
Proof.
  induction l as [|x l IH]; intros H; simpl; constructor.
  - apply H. left. reflexivity.
  - apply IH. intros y Hy. apply H. right. exact Hy.
Qed.

Lemma chunk_length {A : Type} (k : nat) (l : list A) :
  (5 * (k + 1) <= length l)%nat -> length (firstn 5 (skipn (5 * k) l)) = 5%nat.
Proof.
  intros H. rewrite length_firstn, length_skipn. lia.
Qed.

(** With at least one instrument, [split] returns one single-body model per
    body, each holding the body's five parameters followed by the shared
    offsets (so that it looks up the same offset for every instrument id), and
    the sum of the sub-models' velocities is the model's, up to the sign of a
    zero. *)
Theorem split_recomposes (fuel : nat) (bodyCount instrumentCount : Z)
    (params : list float) (time : ndarray) (ids : list Z) :
  (0 <= bodyCount)%Z -> (1 <= instrumentCount)%Z ->
  Z.of_nat (length params) = (5 * bodyCount + instrumentCount)%Z ->
  let model := DopplerOptimizationModel.init bodyCount instrumentCount params None in
  length (DopplerOptimizationModel.split model) = Z.to_nat bodyCount
  /\ (forall k sub,
         nth_error (DopplerOptimizationModel.split model) k = Some sub ->
         DopplerOptimizationModel.number_of_planets sub = 1%Z
         /\ DopplerOptimizationModel.number_of_telescopes sub = instrumentCount
         /\ DopplerOptimizationModel.orbital_parameters sub
            = DopplerOptimizationModel.get_orbital_parameters model (Z.of_nat k)
              ++ DopplerOptimizationModel.get_offsets model
         /\ length (DopplerOptimizationModel.get_orbital_parameters model (Z.of_nat k))
            = 5%nat
         /\ length (DopplerOptimizationModel.get_offsets model)
            = Z.to_nat instrumentCount
         /\ DopplerOptimizationModel.offsets_of_instruments sub ids
            = DopplerOptimizationModel.offsets_of_instruments model ids)
  /\ same_result
       (py_sum (map (fun sub => DopplerOptimizationModel.radial_velocities fuel sub time)
                    (DopplerOptimizationModel.split model)))
       (DopplerOptimizationModel.radial_velocities fuel model time).
Proof.
  intros Hn HT Hlen model. subst model.
  rewrite split_as_chunks by assumption.
  split; [rewrite length_map, length_seq; reflexivity|]. split.
  - intros k sub Hsub.
    rewrite nth_error_map in Hsub.
    destruct (nth_error (seq 0 (Z.to_nat bodyCount)) k) as [k'|] eqn:Hk;
      [|discriminate Hsub].
    assert (Hlt : (k < Z.to_nat bodyCount)%nat).
    { assert (Hsome : nth_error (seq 0 (Z.to_nat bodyCount)) k <> None) by congruence.
      apply nth_error_Some in Hsome. rewrite length_seq in Hsome. exact Hsome. }
    assert (k' = k).
    { apply nth_error_nth with (d := O) in Hk.
      rewrite seq_nth in Hk by exact Hlt. lia. }
    subst k'. cbn [option_map] in Hsub.
    assert (Hs : DopplerOptimizationModel.init
                   1 instrumentCount
                   (firstn 5 (skipn (5 * k) params)
                    ++ skipn (5 * Z.to_nat bodyCount) params) None = sub)
      by congruence.
    subst sub. clear Hsub.
    unfold DopplerOptimizationModel.get_orbital_parameters,
      DopplerOptimizationModel.get_offsets,
      DopplerOptimizationModel.offsets_of_instruments.
    cbn [DopplerOptimizationModel.number_of_planets
         DopplerOptimizationModel.number_of_telescopes
         DopplerOptimizationModel.orbital_parameters DopplerOptimizationModel.init].
    assert (Hchunk : length (firstn 5 (skipn (5 * k) params)) = 5%nat)
      by (apply chunk_length; lia).
    assert (Hoffs : length (skipn (5 * Z.to_nat bodyCount) params)
                    = Z.to_nat instrumentCount)
      by (rewrite length_skipn; lia).
    rewrite slice_chunk by lia.
    rewrite (slice_trailing instrumentCount params) by lia.
    replace (length params - Z.to_nat instrumentCount)%nat
      with (5 * Z.to_nat bodyCount)%nat by lia.
    rewrite slice_trailing by (rewrite length_app; lia).
    replace (length (firstn 5 (skipn (5 * k) params)
                     ++ skipn (5 * Z.to_nat bodyCount) params)
             - Z.to_nat instrumentCount)%nat
      with (length (firstn 5 (skipn (5 * k) params)) + 0)%nat
      by (rewrite length_app; lia).
    rewrite skipn_app, Nat.add_0_r, skipn_all, Nat.sub_diag. cbn [skipn app].
    repeat split; auto.
  - rewrite radial_velocities_as_sum by lia.
    rewrite map_map. unfold py_sum.
    apply sum_same; [|apply same_result_refl].
    apply Forall2_map_in. intros k Hk. apply in_seq in Hk.
    unfold DopplerOptimizationModel.radial_velocities.
    cbn [DopplerOptimizationModel.number_of_planets
         DopplerOptimizationModel.orbital_parameters DopplerOptimizationModel.init].
    rewrite n_planets_one_chunk by (apply chunk_length; lia).
    apply zero_plus_same.
Qed.

End SplitTheorems.

(** The decomposition on two bodies and two instruments. *)
Lemma split_recomposes_witness :
  let params := [0; 50; 1; 10; 0.25; 3; 20; 2; 100; 0.5; 1.5; -2.5] in
  let time := Array [0; 2.5; 5; 7.5] in
  let ids := [0; 1; 1; 0]%Z in
  let model := DopplerOptimizationModel.init 2 2 params None in
  length (DopplerOptimizationModel.split model) = 2%nat
  /\ (forall k sub,
         nth_error (DopplerOptimizationModel.split model) k = Some sub ->
         DopplerOptimizationModel.number_of_planets sub = 1%Z
         /\ DopplerOptimizationModel.number_of_telescopes sub = 2%Z
         /\ DopplerOptimizationModel.orbital_parameters sub
            = DopplerOptimizationModel.get_orbital_parameters model (Z.of_nat k)
              ++ DopplerOptimizationModel.get_offsets model
         /\ length (DopplerOptimizationModel.get_orbital_parameters model (Z.of_nat k))
            = 5%nat
         /\ length (DopplerOptimizationModel.get_offsets model) = 2%nat
         /\ DopplerOptimizationModel.offsets_of_instruments sub ids
            = DopplerOptimizationModel.offsets_of_instruments model ids)
  /\ same_result
       (py_sum (map (fun sub => DopplerOptimizationModel.radial_velocities
                                 (np := Series.numpy) 50 sub time)
                    (DopplerOptimizationModel.split model)))
       (DopplerOptimizationModel.radial_velocities (np := Series.numpy) 50 model time).
Proof.
  intros params time ids.
  apply (@split_recomposes Series.numpy 50 2 2 params time ids);
    [lia | lia | reflexivity].
Defined.

(** The two sides of that example, computed. *)
Example split_recomposes_example :
  let params := [0; 50; 1; 10; 0.25; 3; 20; 2; 100; 0.5; 1.5; -2.5] in
  let model := DopplerOptimizationModel.init 2 2 params None in
  py_sum (map (fun sub => DopplerOptimizationModel.radial_velocities
                            (np := Series.numpy) 50 sub (Array [0; 2.5; 5; 7.5]))
              (DopplerOptimizationModel.split model))
  = DopplerOptimizationModel.radial_velocities (np := Series.numpy) 50 model
                                               (Array [0; 2.5; 5; 7.5]).
Proof. vm_compute. reflexivity. Qed.

(** * More on the solver and on the bounds decorator *)

Section NaNFacts.

Lemma is_nan_true (x : float) : is_nan x = true -> Prim2SF x = S754_nan.
Proof.
  unfold is_nan. rewrite eqb_spec. intros H.
  destruct (Prim2SF x) as [s|s| |s m e] eqn:Hx; try reflexivity;
    rewrite SFeqb_refl in H by discriminate; discriminate H.
Qed.

Lemma leb_nan_r (a x : float) : Prim2SF x = S754_nan -> (a <=? x) = false.
Proof.
  intros Hx. rewrite leb_spec, Hx. destruct (Prim2SF a); reflexivity.
Qed.

Lemma leb_nan_l (x b : float) : Prim2SF x = S754_nan -> (x <=? b) = false.
Proof.
  intros Hx. rewrite leb_spec, Hx. reflexivity.
Qed.

Lemma abs_nan (x : float) : Prim2SF x = S754_nan -> Prim2SF (abs x) = S754_nan.
Proof. intros Hx. rewrite abs_spec, Hx. reflexivity. Qed.

Lemma add_nan_r (a x : float) : Prim2SF x = S754_nan -> Prim2SF (a + x) = S754_nan.
Proof.
  intros Hx. rewrite add_spec, Hx. destruct (Prim2SF a); reflexivity.
Qed.

Lemma add_nan_l (x b : float) : Prim2SF x = S754_nan -> Prim2SF (x + b) = S754_nan.
Proof. intros Hx. rewrite add_spec, Hx. reflexivity. Qed.

Lemma sub_nan_l (x b : float) : Prim2SF x = S754_nan -> Prim2SF (x - b) = S754_nan.
Proof. intros Hx. rewrite sub_spec, Hx. reflexivity. Qed.

Lemma mul_nan_l (x b : float) : Prim2SF x = S754_nan -> Prim2SF (x * b) = S754_nan.
Proof. intros Hx. rewrite mul_spec, Hx. reflexivity. Qed.

End NaNFacts.

Section SolverEdges.

Context {np : Numpy}.

(** A NaN mean anomaly (after the reduction modulo 2 pi) or a NaN
    eccentricity makes the loop test false at once: the solver returns the
    reduced mean anomaly, without a run of the loop body and without an
    error, whatever the tolerance. *)
Theorem kepler_solver_on_nan (fuel : nat) (M e eps : float) :
  is_nan (np_mod M two_pi) = true \/ is_nan e = true ->
  kepler_equation_solver fuel M e eps = Ret (np_mod M two_pi).
Proof.
  intros H. unfold kepler_equation_solver.
  assert (Hk : keep_iterating (np_mod M two_pi) e eps (np_mod M two_pi) = false).
  { unfold keep_iterating, kepler_function. apply leb_nan_r, abs_nan.
    destruct H as [H | H]; apply is_nan_true in H.
    - apply add_nan_l, sub_nan_l, H.
    - apply add_nan_r, mul_nan_l, H. }
  destruct fuel; simpl; rewrite Hk; reflexivity.
Qed.

Lemma mapM_Forall2 {A B : Type} (f : A -> result B) (l : list A) (l' : list B) :
  mapM f l = Ret l' <-> Forall2 (fun a b => f a = Ret b) l l'.
Proof.
  revert l'. induction l as [|a l IH]; intros l'; simpl.
  - split.
    + intros H; injection H as <-. constructor.
    + intros H; inversion H. reflexivity.
  - split.
    + destruct (f a) as [b| |] eqn:Hfa; try discriminate. cbn [bind].
      destruct (mapM f l) as [bs| |] eqn:Hm; try discriminate. cbn [bind].
      intros H; injection H as <-. constructor; [exact Hfa|].
      apply IH. reflexivity.
    + intros H. inversion H as [|a' b l0 bs Hfa Hrest]; subst.
      rewrite Hfa. cbn [bind]. apply IH in Hrest. rewrite Hrest. reflexivity.
Qed.

Lemma mapM_kepler_never_raises (fuel : nat) (ms : list float) (e eps : float) (x : exn) :
  mapM (fun m => kepler_equation_solver fuel m e eps) ms <> Raise x.
Proof.
  induction ms as [|m ms IH]; simpl; [discriminate|].
  destruct (kepler_equation_solver fuel m e eps) as [E|y|] eqn:Hm; cbn [bind].
  - destruct (mapM (fun m => kepler_equation_solver fuel m e eps) ms) as [Es|y|];
      cbn [bind]; try discriminate. exact IH.
  - exfalso. unfold kepler_equation_solver in Hm.
    exact (kepler_loop_never_raises _ _ _ _ _ _ Hm).
  - discriminate.
Qed.

(** The vectorized solver: an empty array is refused with [ValueError]; on
    a non-empty array it raises nothing, and it returns exactly when the
    scalar solver returns on every element, with the results in the order
    of the elements. *)
Theorem multi_kepler_elementwise (fuel : nat) (m : float) (ms : list float)
    (e eps : float) :
  multi_kepler_equation_solver fuel [] e eps = Raise ValueError
  /\ (forall Es,
         multi_kepler_equation_solver fuel (m :: ms) e eps = Ret Es <->
         Forall2 (fun m E => kepler_equation_solver fuel m e eps = Ret E) (m :: ms) Es)
  /\ (forall x, multi_kepler_equation_solver fuel (m :: ms) e eps <> Raise x).
Proof.
  split; [reflexivity|]. split.
  - intros Es. unfold multi_kepler_equation_solver. apply mapM_Forall2.
  - intros x. unfold multi_kepler_equation_solver. apply mapM_kepler_never_raises.
Qed.

(** [doppler_solver] on five parameters: the body when they are inside the
    bounds, and otherwise the sentinel on [len(time)]. *)
Lemma doppler_solver_guard (fuel : nat) (time : ndarray) (tau K omega P ecc : float) :
  doppler_solver fuel time [tau; K; omega; P; ecc]
  = if within_doppler_bounds tau K omega P ecc
    then doppler_solver_body fuel time tau K omega P ecc
    else n <- len time ;; Ret (Array (repeat out_of_bound_default n)).
Proof.
  unfold doppler_solver, check_the_bounds_of_arguments, within_doppler_bounds.
  cbn [map_check doppler_solver_bounds bind check_the_single_bound all forallb].
  rewrite !andb_true_r.
  destruct (0 <=? tau), (0 <=? K), (0 <=? omega), (omega <=? two_pi),
    (0 <=? P), (0 <=? ecc), (ecc <=? 1); reflexivity.
Qed.

Lemma nan_outside_bounds (tau K omega P ecc p : float) :
  In p [tau; K; omega; P; ecc] -> is_nan p = true ->
  within_doppler_bounds tau K omega P ecc = false.
Proof.
  intros Hin Hnan. apply is_nan_true in Hnan.
  unfold within_doppler_bounds.
  destruct Hin as [<- | [<- | [<- | [<- | [<- | []]]]]];
    rewrite (leb_nan_r 0 _ Hnan); rewrite ?andb_false_r; reflexivity.
Qed.

(** A NaN among the five parameters is outside every bound: on an array of
    times [doppler_solver] answers with the sentinel, once per time. *)
Theorem doppler_solver_nan_parameter (fuel : nat) (ts : list float)
    (tau K omega P ecc p : float) :
  In p [tau; K; omega; P; ecc] -> is_nan p = true ->
  doppler_solver fuel (Array ts) [tau; K; omega; P; ecc]
  = Ret (Array (repeat out_of_bound_default (length ts))).
Proof.
  intros Hin Hnan. rewrite doppler_solver_guard.
  rewrite (nan_outside_bounds _ _ _ _ _ p Hin Hnan). reflexivity.
Qed.

Lemma short_parameters_fail_check (params : list float) :
  (length params < 5)%nat ->
  exists checks, map_check params doppler_solver_bounds = Ret checks
                 /\ all checks = false.
Proof.
  intros Hlen.
  destruct params as [|p0 [|p1 [|p2 [|p3 [|p4 rest]]]]];
    try (simpl in Hlen; lia);
    (eexists; split; [reflexivity|]);
    unfold all; cbn [forallb check_the_single_bound];
    rewrite ?andb_false_r; reflexivity.
Qed.

(** The number of parameters: with fewer than five, the missing ones fail
    their lower bounds and [doppler_solver] answers with the sentinel on an
    array of times, whatever the values given; with more than five, it
    raises [TypeError]. *)
Theorem doppler_solver_parameter_count (fuel : nat) (ts params : list float) :
  length params <> 5%nat ->
  doppler_solver fuel (Array ts) params
  = if (length params <? 5)%nat
    then Ret (Array (repeat out_of_bound_default (length ts)))
    else Raise TypeError.
Proof.
  intros Hlen. destruct (Nat.ltb_spec (length params) 5) as [Hlt | Hge].
  - destruct (short_parameters_fail_check params Hlt) as (checks & Hc & Ha).
    apply (sentinel_on_violation fuel ts params checks Hc Ha).
  - destruct params as [|p0 [|p1 [|p2 [|p3 [|p4 [|p5 rest]]]]]];
      try (simpl in Hge; lia); try (simpl in Hlen; lia).
    unfold doppler_solver, check_the_bounds_of_arguments.
    cbn [map_check doppler_solver_bounds bind]. reflexivity.
Qed.

Lemma xrange3_by_five_succ (n : nat) :
  Py.xrange3 0 (5 * Z.of_nat (S n)) 5
  = Py.xrange3 0 (5 * Z.of_nat n) 5 ++ [(5 * Z.of_nat n)%Z].
Proof.
  rewrite !xrange3_by_five by lia. rewrite !Nat2Z.id.
  rewrite seq_S, map_app. reflexivity.
Qed.

(** The sum over the planets is taken from the left: no planet gives the
    int [0], and one planet more adds [doppler_solver] on the next five
    parameters to the sum so far. *)
Theorem n_planets_step (fuel : nat) (n : nat) (time : ndarray) (params : list float) :
  doppler_solver_for_n_planets fuel 0 time params = Ret (Scalar 0)
  /\ doppler_solver_for_n_planets fuel (Z.of_nat (S n)) time params
     = (sum_so_far <- doppler_solver_for_n_planets fuel (Z.of_nat n) time params ;;
        next <- doppler_solver fuel time
                  (Py.slice (Some (5 * Z.of_nat n)%Z) (Some (5 * Z.of_nat n + 5)%Z)
                            params) ;;
        nd_add sum_so_far next).
Proof.
  split; [reflexivity|].
  unfold doppler_solver_for_n_planets, py_sum.
  rewrite xrange3_by_five_succ, map_app, fold_left_app. reflexivity.
Qed.

End SolverEdges.

(** * More on the composite model *)

Section ModelEdges.

Lemma getitem_in_range {A : Type} (l : list A) (i : Z) (d : A) :
  (- Z.of_nat (length l) <= i < Z.of_nat (length l))%Z ->
  Py.getitem l i = Ret (nth (Z.to_nat (i mod Z.of_nat (length l))) l d).
Proof.
  intros Hi. unfold Py.getitem.
  destruct (Z.ltb_spec i 0) as [Hneg | Hpos].
  - destruct (Z.ltb_spec (i + Z.of_nat (length l)) 0); [lia|].
    replace (i mod Z.of_nat (length l))%Z with (i + Z.of_nat (length l))%Z
      by (apply Z.mod_unique with (q := (-1)%Z); lia).
    destruct (nth_error l (Z.to_nat (i + Z.of_nat (length l)))) as [a|] eqn:Hn.
    + rewrite (nth_error_nth _ _ d Hn). reflexivity.
    + apply nth_error_None in Hn. lia.
  - destruct (Z.ltb_spec i 0); [lia|].
    rewrite Z.mod_small by lia.
    destruct (nth_error l (Z.to_nat i)) as [a|] eqn:Hn.
    + rewrite (nth_error_nth _ _ d Hn). reflexivity.
    + apply nth_error_None in Hn. lia.
Qed.

Lemma getitem_out_of_range {A : Type} (l : list A) (i : Z) :
  (i < - Z.of_nat (length l) \/ Z.of_nat (length l) <= i)%Z ->
  Py.getitem l i = Raise IndexError.
Proof.
  intros Hi. unfold Py.getitem.
  destruct (Z.ltb_spec i 0) as [Hneg | Hpos].
  - destruct (Z.ltb_spec (i + Z.of_nat (length l)) 0); [reflexivity|lia].
  - destruct (Z.ltb_spec i 0); [lia|].
    destruct (nth_error l (Z.to_nat i)) as [a|] eqn:Hn; [|reflexivity].
    assert (nth_error l (Z.to_nat i) <> None) by congruence.
    apply nth_error_Some in H0. lia.
Qed.

Lemma mapM_getitem_in_range {A : Type} (l : list A) (ids : list Z) (d : A) :
  Forall (fun i => (- Z.of_nat (length l) <= i < Z.of_nat (length l))%Z) ids ->
  mapM (Py.getitem l) ids
  = Ret (map (fun i => nth (Z.to_nat (i mod Z.of_nat (length l))) l d) ids).
Proof.
  induction 1 as [|i ids Hi _ IH]; simpl; [reflexivity|].
  rewrite (getitem_in_range l i d Hi). cbn [bind]. rewrite IH. reflexivity.
Qed.

Lemma getitem_ret_or_index_error {A : Type} (l : list A) (i : Z) :
  (exists a, Py.getitem l i = Ret a) \/ Py.getitem l i = Raise IndexError.
Proof.
  unfold Py.getitem.
  destruct ((if (i <? 0)%Z then (i + Z.of_nat (length l))%Z else i) <? 0)%Z; auto.
  destruct (nth_error l _); eauto.
Qed.

Lemma mapM_getitem_out_of_range {A : Type} (l : list A) (ids : list Z) :
  Exists (fun i => (i < - Z.of_nat (length l) \/ Z.of_nat (length l) <= i)%Z) ids ->
  mapM (Py.getitem l) ids = Raise IndexError.
Proof.
  induction 1 as [i ids Hi | i ids _ IH]; simpl.
  - rewrite (getitem_out_of_range l i Hi). reflexivity.
  - destruct (getitem_ret_or_index_error l i) as [[a ->] | ->]; [|reflexivity].
    cbn [bind]. rewrite IH. reflexivity.
Qed.

(** The offsets of a list of instrument ids, for a model of
    [instrumentCount >= 1] instruments that has that many parameters at
    least.  Ids from [-instrumentCount] to [instrumentCount - 1] are looked up
    in [get_offsets()], a negative id counting from the end; any id outside
    that range makes the call raise [IndexError]. *)
Theorem offsets_of_instruments_lookup (bodyCount instrumentCount : Z)
    (params : list float) (ids : list Z) :
  (1 <= instrumentCount <= Z.of_nat (length params))%Z ->
  let model := DopplerOptimizationModel.init bodyCount instrumentCount params None in
  (Forall (fun i => (- instrumentCount <= i < instrumentCount)%Z) ids ->
   DopplerOptimizationModel.offsets_of_instruments model ids
   = Ret (Array (map (fun i => nth (Z.to_nat (i mod instrumentCount))
                                   (DopplerOptimizationModel.get_offsets model) 0)
                     ids)))
  /\ (Exists (fun i => (i < - instrumentCount \/ instrumentCount <= i)%Z) ids ->
      DopplerOptimizationModel.offsets_of_instruments model ids = Raise IndexError).
Proof.
  intros HT model. subst model.
  unfold DopplerOptimizationModel.offsets_of_instruments,
    DopplerOptimizationModel.get_offsets.
  cbn [DopplerOptimizationModel.number_of_telescopes
       DopplerOptimizationModel.orbital_parameters DopplerOptimizationModel.init].
  rewrite slice_trailing by lia.
  set (offsets := skipn (length params - Z.to_nat instrumentCount) params).
  assert (Hlen : Z.of_nat (length offsets) = instrumentCount)
    by (subst offsets; rewrite length_skipn; lia).
  rewrite <- Hlen. split; intros Hids.
  - rewrite (mapM_getitem_in_range offsets ids 0 Hids). reflexivity.
  - rewrite (mapM_getitem_out_of_range offsets ids Hids). reflexivity.
Qed.

(** A model with uncertainties of the layout of its parameters: the slices
    of the uncertainties, body after body, followed by the slice of the
    offsets, are the uncertainties. *)
Theorem uncertainties_round_trip (bodyCount instrumentCount : Z)
    (params uncertainties : list float) :
  (0 <= bodyCount)%Z -> (1 <= instrumentCount)%Z ->
  Z.of_nat (length uncertainties) = (5 * bodyCount + instrumentCount)%Z ->
  let model :=
    DopplerOptimizationModel.init bodyCount instrumentCount params (Some uncertainties) in
  exists chunks offsets,
    mapM (DopplerOptimizationModel.get_orbital_uncertainties model) (Py.xrange bodyCount)
    = Ret chunks
    /\ DopplerOptimizationModel.get_offsets_uncersainties model = Ret offsets
    /\ Forall (fun chunk => length chunk = 5%nat) chunks
    /\ length offsets = Z.to_nat instrumentCount
    /\ concat chunks ++ offsets = uncertainties.
Proof.
  intros Hn HT Hlen model. subst model.
  unfold DopplerOptimizationModel.get_orbital_uncertainties,
    DopplerOptimizationModel.get_offsets_uncersainties.
  cbn [DopplerOptimizationModel.parameters_uncertainties
       DopplerOptimizationModel.number_of_telescopes DopplerOptimizationModel.init].
  exists (map (fun k => firstn 5 (skipn (5 * k) uncertainties))
              (seq 0 (Z.to_nat bodyCount))).
  exists (skipn (5 * Z.to_nat bodyCount) uncertainties).
  split; [|split; [|split; [|split]]].
  - apply mapM_Forall2. rewrite xrange_seq.
    apply Forall2_map_in. intros k Hk. apply in_seq in Hk.
    rewrite slice_chunk by lia. reflexivity.
  - rewrite slice_trailing by lia. f_equal. f_equal. lia.
  - apply Forall_forall. intros chunk Hin. apply in_map_iff in Hin.
    destruct Hin as (k & <- & Hk). apply in_seq in Hk. apply chunk_length. lia.
  - rewrite length_skipn. lia.
  - rewrite concat_chunks. apply firstn_skipn.
Qed.

End ModelEdges.

(** * More on the observations *)

Section LoadEdges.

Lemma SFcompare_antisym (x y : spec_float) :
  SFcompare y x = option_map CompOpp (SFcompare x y).
Proof.
  destruct x as [sx|sx| |sx mx ex], y as [sy|sy| |sy my ey]; simpl;
    try reflexivity; try (destruct sx; reflexivity); try (destruct sy; reflexivity);
    try (destruct sx, sy; reflexivity).
  pose proof (Pos.compare_cont_antisym mx my Eq) as H. simpl in H.
  destruct sx, sy; simpl; try reflexivity;
    rewrite (Z.compare_antisym ex ey);
    destruct (Z.compare ex ey); simpl; try reflexivity;
    rewrite <- H; destruct (Pos.compare_cont Eq mx my); reflexivity.
Qed.

Lemma SFcompare_numbers (x y : spec_float) :
  x <> S754_nan -> y <> S754_nan -> exists c, SFcompare x y = Some c.
Proof.
  destruct x as [sx|sx| |sx mx ex], y as [sy|sy| |sy my ey]; simpl;
    intros Hx Hy; try congruence; eauto.
Qed.

(** Two numbers are comparable: not [a < b] is [b <= a]. *)
Lemma not_ltb_leb (a b : float) :
  is_number a -> is_number b -> (a <? b) = false -> (b <=? a) = true.
Proof.
  unfold is_number. rewrite ltb_spec, leb_spec. intros Ha Hb.
  unfold SFltb, SFleb. rewrite (SFcompare_antisym (Prim2SF a) (Prim2SF b)).
  destruct (SFcompare_numbers _ _ Ha Hb) as [c ->]. destruct c; simpl; congruence.
Qed.

Lemma ltb_leb (a b : float) : (a <? b) = true -> (a <=? b) = true.
Proof.
  rewrite ltb_spec, leb_spec. unfold SFltb, SFleb.
  destruct (SFcompare (Prim2SF a) (Prim2SF b)) as [[ | | ]|]; congruence.
Qed.

Lemma insert_row_perm (key : float) (row : list float)
    (rows : list (float * list float)) :
  Permutation (ObservationsData.insert_row key row rows) ((key, row) :: rows).
Proof.
  induction rows as [|[k r] rows IH]; simpl; [reflexivity|].
  destruct (k <? key); [|reflexivity].
  rewrite IH. apply perm_swap.
Qed.

Lemma sort_rows_perm (keyed : list (float * list float)) :
  Permutation
    (fold_right (fun kr acc => ObservationsData.insert_row (fst kr) (snd kr) acc)
                [] keyed)
    keyed.
Proof.
  induction keyed as [|[k r] keyed IH]; simpl; [reflexivity|].
  rewrite insert_row_perm. constructor. exact IH.
Qed.

Lemma insert_row_sorted (key : float) (row : list float)
    (rows : list (float * list float)) :
  is_number key -> Forall (fun kr => is_number (fst kr)) rows ->
  ascending (map fst rows) ->
  ascending (map fst (ObservationsData.insert_row key row rows)).
Proof.
  unfold ascending. intros Hkey Hnum Hsorted.
  induction rows as [|[k r] rows IH]; simpl; [repeat constructor|].
  inversion Hnum as [|kr rows' Hk Hnum']; subst. simpl in Hk.
  simpl in Hsorted. inversion Hsorted as [|k' ks Hs Hhd]; subst.
  destruct (k <? key) eqn:Hlt.
  - simpl. constructor; [apply IH; assumption|].
    destruct rows as [|[k2 r2] rows]; simpl.
    + constructor. apply ltb_leb, Hlt.
    + destruct (k2 <? key); simpl; constructor.
      * inversion Hhd; assumption.
      * apply ltb_leb, Hlt.
  - simpl. constructor; [constructor; assumption|].
    constructor. apply not_ltb_leb; assumption.
Qed.

Lemma sort_rows_sorted (keyed : list (float * list float)) :
  Forall (fun kr => is_number (fst kr)) keyed ->
  ascending
    (map fst (fold_right (fun kr acc => ObservationsData.insert_row (fst kr) (snd kr) acc)
                         [] keyed)).
Proof.
  induction 1 as [|[k r] keyed Hk Hall IH]; simpl; [constructor|].
  apply insert_row_sorted; [exact Hk| |exact IH].
  eapply Permutation_Forall; [symmetry; apply sort_rows_perm|exact Hall].
Qed.

Lemma column_Forall2 (rows : list (list float)) (k : nat) (values : list float) :
  ObservationsData.column rows k = Ret values <->
  Forall2 (fun row x => nth_error row k = Some x) rows values.
Proof.
  unfold ObservationsData.column. rewrite mapM_Forall2.
  split; intros H; induction H; constructor; auto.
  - destruct (nth_error x k); congruence.
  - rewrite H. reflexivity.
Qed.

Lemma combine_keys (rows : list (list float)) (keys : list float) :
  Forall2 (fun row x => nth_error row 0 = Some x) rows keys ->
  Forall (fun kr => nth_error (snd kr) 0 = Some (fst kr)) (combine keys rows)
  /\ map snd (combine keys rows) = rows
  /\ map fst (combine keys rows) = keys.
Proof.
  induction 1 as [|row x rows keys Hx _ (IH1 & IH2 & IH3)]; simpl.
  - repeat split; constructor.
  - repeat split; [constructor; assumption|f_equal; assumption..].
Qed.

Lemma column_of_keyed (keyed : list (float * list float)) :
  Forall (fun kr => nth_error (snd kr) 0 = Some (fst kr)) keyed ->
  ObservationsData.column (map snd keyed) 0 = Ret (map fst keyed).
Proof.
  intros H. apply column_Forall2. induction H; simpl; constructor; auto.
Qed.

(** What [sorted_by_time] returns: the rows of the table, in another order;
    and their times ascend when all the times of the table are numbers. *)
Lemma sorted_by_time_spec (table sorted : list (list float)) :
  ObservationsData.sorted_by_time table = Ret sorted ->
  Permutation sorted table
  /\ exists times,
       ObservationsData.column sorted 0 = Ret times
       /\ ((forall keys, ObservationsData.column table 0 = Ret keys ->
                         Forall is_number keys) ->
           ascending times).
Proof.
  unfold ObservationsData.sorted_by_time.
  destruct (ObservationsData.column table 0) as [keys| |] eqn:Hk; try discriminate.
  cbn [bind]. intros H; injection H as <-.
  apply column_Forall2 in Hk. destruct (combine_keys table keys Hk) as (Hc & Hs & Hf).
  set (keyed := combine keys table) in *.
  set (sorted := fold_right
                   (fun kr acc => ObservationsData.insert_row (fst kr) (snd kr) acc)
                   [] keyed).
  assert (Hperm : Permutation sorted keyed) by apply sort_rows_perm.
  split.
  - rewrite <- Hs. apply Permutation_map. exact Hperm.
  - exists (map fst sorted). split.
    + apply column_of_keyed.
      eapply Permutation_Forall; [symmetry; exact Hperm|exact Hc].
    + intros Hnum. specialize (Hnum keys eq_refl).
      apply sort_rows_sorted. rewrite <- Hf in Hnum.
      apply Forall_forall. intros kr Hin.
      rewrite Forall_forall in Hnum. apply Hnum. apply in_map. exact Hin.
Qed.

Lemma column_length (rows : list (list float)) (k : nat) (values : list float) :
  ObservationsData.column rows k = Ret values -> length values = length rows.
Proof. apply mapM_length. Qed.

Lemma nodup_count (ids : list Z) :
  ids <> [] ->
  (1 <= length (nodup Z.eq_dec ids) <= length ids)%nat.
Proof.
  intros Hne. split.
  - destruct ids as [|i ids]; [congruence|].
    assert (Hin : In i (nodup Z.eq_dec (i :: ids))) by (apply nodup_In; left; reflexivity).
    destruct (nodup Z.eq_dec (i :: ids)); [contradiction|simpl; lia].
  - apply NoDup_incl_length; [apply NoDup_nodup|].
    intros x Hx. apply nodup_In in Hx. exact Hx.
Qed.

Context {np : Numpy}.

(** What [load_data] returns, whatever its sorting and scaling options: a
    dataset whose four
    sequences have one entry per row of the file, with [count] the number of
    rows (at least one) and [telescopes_count] between 1 and [count]. *)
Theorem load_data_shape (table : list (list float))
    (sort_observations scale_to_the_mean convert_kmps_to_mps scale_to_the_jitter : bool)
    (jitter_value : float) (observations : ObservationsData.t) :
  ObservationsData.load_data table sort_observations scale_to_the_mean
                             convert_kmps_to_mps scale_to_the_jitter jitter_value
  = Ret observations ->
  length (ObservationsData.julian_times observations) = length table
  /\ length (ObservationsData.radial_velocities observations) = length table
  /\ length (ObservationsData.uncertainties observations) = length table
  /\ length (ObservationsData.ids_of_telescopes observations) = length table
  /\ ObservationsData.count observations = Z.of_nat (length table)
  /\ (1 <= ObservationsData.telescopes_count observations
         <= ObservationsData.count observations)%Z.
Proof.
  intros Hret.
  destruct (load_data_of_matrix _ _ _ _ _ _ _ Hret) as [Hload _].
  revert Hret. unfold ObservationsData.load_data. rewrite Hload. cbn [bind].
  destruct (Nat.eqb_spec (length table) 0) as [|Hne]; [discriminate|].
  assert (Hs : forall sorted,
             (if sort_observations then ObservationsData.sorted_by_time table
              else Ret table) = Ret sorted -> length sorted = length table).
  { intros sorted. destruct sort_observations.
    - intros H. apply sorted_by_time_spec in H. destruct H as [Hp _].
      apply Permutation_length, Hp.
    - intros H; injection H as <-. reflexivity. }
  destruct (if sort_observations then _ else _) as [sorted| |]; try discriminate.
  specialize (Hs sorted eq_refl). cbn [bind].
  destruct (ObservationsData.column sorted 0) as [jt| |] eqn:H0; try discriminate.
  cbn [bind].
  destruct (ObservationsData.column sorted 1) as [rv| |] eqn:H1; try discriminate.
  cbn [bind].
  destruct (ObservationsData.column sorted 2) as [un| |] eqn:H2; try discriminate.
  cbn [bind].
  destruct (ObservationsData.column sorted 3) as [fs| |] eqn:H3; try discriminate.
  cbn [bind].
  destruct (vectorize_int fs) as [ids| |] eqn:Hi; try discriminate. cbn [bind].
  apply vectorize_int_ret in Hi.
  intros H; injection H as <-.
  apply column_length in H0, H1, H2, H3. apply mapM_length in Hi.
  cbn [ObservationsData.julian_times ObservationsData.radial_velocities
       ObservationsData.uncertainties ObservationsData.ids_of_telescopes
       ObservationsData.count ObservationsData.telescopes_count ObservationsData.init].
  assert (Hids : ids <> []) by (destruct ids; [simpl in Hi; lia|discriminate]).
  pose proof (nodup_count ids Hids) as Hnd.
  repeat split; try lia.
  - destruct scale_to_the_mean, convert_kmps_to_mps; rewrite ?length_map; lia.
  - destruct scale_to_the_jitter; rewrite ?length_map; lia.
Qed.


Lemma column_total (rows : list (list float)) (k : nat) :
  Forall (fun row => (k < length row)%nat) rows ->
  exists values, ObservationsData.column rows k = Ret values.
Proof.
  induction 1 as [|row rows Hk _ [values IH]].
  - exists []. reflexivity.
  - destruct (nth_error row k) as [x|] eqn:Hx.
    + exists (x :: values). apply column_Forall2. constructor; [exact Hx|].
      apply column_Forall2. exact IH.
    + apply nth_error_None in Hx. lia.
Qed.

Lemma int_of_float_finite (x : float) :
  (exists z, int_of_float x = Ret z) <-> finite x.
Proof.
  unfold int_of_float, finite.
  destruct (Prim2SF x) as [s|s| |s m e]; split; intros H;
    try exact I; try contradiction; eauto;
    destruct H as [z H]; discriminate H.
Qed.

Lemma loadtxt_rectangular (lines rows : list (list float)) :
  ObservationsData.loadtxt lines = Ret (ObservationsData.Matrix rows) ->
  exists columns, Forall (fun line => length line = columns) lines.
Proof.
  unfold ObservationsData.loadtxt.
  destruct lines as [|first rest]; [discriminate|].
  destruct (forallb _ rest) eqn:Hall; [|discriminate]. intros _.
  exists (length first). constructor; [reflexivity|].
  rewrite forallb_forall in Hall. apply Forall_forall. intros line Hin.
  apply Nat.eqb_eq, Hall, Hin.
Qed.

Lemma loadtxt_of_table (lines : list (list float)) (columns : nat) :
  (2 <= length lines)%nat -> (2 <= columns)%nat ->
  Forall (fun line => length line = columns) lines ->
  ObservationsData.loadtxt lines = Ret (ObservationsData.Matrix lines).
Proof.
  intros Hlen Hcols Hall. unfold ObservationsData.loadtxt.
  destruct lines as [|first [|second rest]]; simpl in Hlen; try lia.
  inversion Hall as [|l ls Hfirst Hrest]; subst.
  assert (Hsame : forallb (fun line => Nat.eqb (length line) (length first))
                          (second :: rest) = true).
  { apply forallb_forall. intros line Hin. apply Nat.eqb_eq.
    rewrite Forall_forall in Hrest. apply Hrest, Hin. }
  rewrite Hsame.
  destruct first as [|x [|y first]]; simpl in Hcols; try lia; reflexivity.
Qed.

Lemma vectorize_int_total (values : list float) :
  values <> [] ->
  Forall (fun x => exists z, int_of_float x = Ret z /\ fits_int64 z = true) values ->
  exists ids, vectorize_int values = Ret ids.
Proof.
  intros Hne Hall.
  assert (Hm : exists ids, mapM int_of_float values = Ret ids
                           /\ forallb fits_int64 ids = true).
  { clear Hne. induction Hall as [|x values (z & Hz & Hfit) _ (ids & Hids & Hfits)].
    - exists []. split; reflexivity.
    - exists (z :: ids). simpl. rewrite Hz. cbn [bind]. rewrite Hids. cbn [bind].
      rewrite Hfit, Hfits. split; reflexivity. }
  destruct Hm as (ids & Hids & Hfits).
  destruct values as [|first values]; [congruence|].
  inversion Hall as [|x xs (z & Hz & _) _]; subst.
  exists ids. unfold vectorize_int. rewrite Hz. cbn [bind]. rewrite Hids. cbn [bind].
  rewrite Hfits, andb_false_r. reflexivity.
Qed.

(** When [load_data] (default options) returns a dataset, for a file
    whose instrument ids are in the range of a 64-bit integer: exactly when
    the file has two lines at least, all of one number of columns, with
    four columns at least and a finite instrument id in every line.  A file
    of one line does not load. *)
Theorem load_data_succeeds_iff (table : list (list float)) :
  Forall small_id table ->
  ((exists observations, ObservationsData.load_data_default table = Ret observations)
   <-> (2 <= length table)%nat
       /\ (exists columns, Forall (fun row => length row = columns) table)
       /\ Forall loadable_row table).
Proof.
  intros Hsmall. split.
  - intros [observations H]. unfold ObservationsData.load_data_default in H.
    destruct (load_data_of_matrix _ _ _ _ _ _ _ H) as [Hload Hlen].
    split; [exact Hlen|]. split; [exact (loadtxt_rectangular _ _ Hload)|].
    apply Forall_forall. intros row Hrow.
    unfold ObservationsData.load_data in H. rewrite Hload in H. cbn [bind] in H.
    destruct (Nat.eqb (length table) 0); [discriminate|].
    destruct (ObservationsData.sorted_by_time table) as [sorted| |] eqn:Hs;
      try discriminate. cbn [bind] in H.
    apply sorted_by_time_spec in Hs. destruct Hs as (Hperm & _).
    destruct (ObservationsData.column sorted 0); try discriminate. cbn [bind] in H.
    destruct (ObservationsData.column sorted 1); try discriminate. cbn [bind] in H.
    destruct (ObservationsData.column sorted 2); try discriminate. cbn [bind] in H.
    destruct (ObservationsData.column sorted 3) as [fs| |] eqn:H3; try discriminate.
    cbn [bind] in H.
    destruct (vectorize_int fs) as [ids| |] eqn:Hi; try discriminate.
    apply vectorize_int_ret in Hi.
    apply column_Forall2 in H3. apply mapM_Forall2 in Hi.
    assert (Hin : In row sorted)
      by (eapply Permutation_in; [symmetry; exact Hperm|exact Hrow]).
    clear - H3 Hi Hin. revert ids Hi.
    induction H3 as [|r x rows fs Hx _ IH]; intros ids Hi; [contradiction|].
    inversion Hi as [|x' z fs' ids' Hz Hrest]; subst.
    destruct Hin as [-> | Hin].
    + exists x. split; [exact Hx|]. apply int_of_float_finite. eauto.
    + apply (IH Hin ids' Hrest).
  - intros (Hlen & [columns Hrect] & Hall).
    assert (Hfour : Forall (fun row => (3 < length row)%nat) table).
    { apply Forall_forall. intros row Hrow.
      rewrite Forall_forall in Hall. destruct (Hall row Hrow) as (x & Hx & _).
      assert (Hsome : nth_error row 3 <> None) by congruence.
      apply nth_error_Some in Hsome. exact Hsome. }
    assert (Hcolumns : (2 <= columns)%nat).
    { destruct table as [|first rest]; [simpl in Hlen; lia|].
      inversion Hrect; inversion Hfour; subst. lia. }
    unfold ObservationsData.load_data_default, ObservationsData.load_data.
    rewrite (loadtxt_of_table table columns Hlen Hcolumns Hrect). cbn [bind].
    destruct (Nat.eqb_spec (length table) 0) as [H0|_]; [lia|].
    assert (Hcols : forall rows, Permutation rows table ->
                                 forall k, (k < 4)%nat ->
                                           exists values, ObservationsData.column rows k = Ret values).
    { intros rows Hp k Hk. apply column_total.
      eapply Permutation_Forall; [symmetry; exact Hp|].
      eapply Forall_impl; [|exact Hfour]. simpl. intros row Hrow. lia. }
    destruct (Hcols table (Permutation_refl _) 0%nat ltac:(lia)) as [keys Hkeys].
    assert (Hsorted : exists sorted, ObservationsData.sorted_by_time table = Ret sorted).
    { unfold ObservationsData.sorted_by_time. rewrite Hkeys. cbn [bind]. eauto. }
    destruct Hsorted as [sorted Hs]. rewrite Hs. cbn [bind].
    apply sorted_by_time_spec in Hs. destruct Hs as (Hperm & _).
    destruct (Hcols sorted Hperm 0%nat ltac:(lia)) as [c0 ->]. cbn [bind].
    destruct (Hcols sorted Hperm 1%nat ltac:(lia)) as [c1 ->]. cbn [bind].
    destruct (Hcols sorted Hperm 2%nat ltac:(lia)) as [c2 ->]. cbn [bind].
    destruct (Hcols sorted Hperm 3%nat ltac:(lia)) as [c3 H3]. rewrite H3. cbn [bind].
    assert (Hids : exists ids, vectorize_int c3 = Ret ids).
    { apply vectorize_int_total.
      - apply column_length in H3. apply Permutation_length in Hperm.
        destruct c3; [simpl in H3; lia|discriminate].
      - apply column_Forall2 in H3.
        assert (Hall' : Forall (fun row => loadable_row row /\ small_id row) sorted).
        { eapply Permutation_Forall; [symmetry; exact Hperm|].
          apply Forall_forall. intros row Hrow. rewrite Forall_forall in Hall, Hsmall.
          split; [apply Hall|apply Hsmall]; exact Hrow. }
        clear - H3 Hall'. induction H3 as [|r x rows fs Hx _ IH]; [constructor|].
        inversion Hall' as [|r' rows' [(y & Hy & Hfin) Hsm] Hrest]; subst.
        constructor; [|exact (IH Hrest)].
        assert (y = x) by congruence. subst y.
        apply int_of_float_finite in Hfin. destruct Hfin as [z Hz].
        exists z. split; [exact Hz|]. exact (Hsm x z Hx Hz). }
    destruct Hids as [ids ->]. cbn [bind]. eauto.
Qed.

End LoadEdges.

(** Files that do not load: a single line; a single number; lines of
    three columns; and an instrument id too large for the 64-bit integers
    the first id has made the element type. *)
Example load_data_refusals :
  ObservationsData.load_data_default (np := Series.numpy) [[2450000.5; 12.5; 1.0; 0.0]]
  = Raise IndexError
  /\ ObservationsData.load_data_default (np := Series.numpy) [[2450000.5]]
     = Raise TypeError
  /\ ObservationsData.load_data_default (np := Series.numpy)
       [[2450000.5; 12.5; 1.0]; [2450001.5; -3.0; 2.0]]
     = Raise IndexError
  /\ ObservationsData.load_data_default (np := Series.numpy)
       [[2450000.5; 12.5; 1.0; 0.0]; [2450001.5; -3.0; 2.0; 1e19]]
     = Raise OverflowError.
Proof. repeat split; vm_compute; reflexivity. Qed.

(** * What the solver guarantees of a value it returns *)

Section SolverPostcondition.

Context {np : Numpy}.

Lemma abs_is_number (x : float) : is_number x -> is_number (abs x).
Proof.
  unfold is_number. rewrite abs_spec.
  destruct (Prim2SF x) as [s|s| |s m e]; simpl; congruence.
Qed.

(** Whenever [kepler_equation_solver] returns a value [E], for any mean
    anomaly, eccentricity and tolerance: the residual of Kepler's equation
    at [E] against the reduced mean anomaly, as the loop test computes it in
    binary64, is below the tolerance in magnitude, the residual and the
    tolerance being numbers (a comparison with NaN is false either way).
    This says nothing on whether the solver returns. *)
Theorem returned_anomaly_meets_tolerance (fuel : nat) (M e eps E : float) :
  kepler_equation_solver fuel M e eps = Ret E ->
  is_number eps ->
  is_number (kepler_function (np_mod M two_pi) e E) ->
  (abs (kepler_function (np_mod M two_pi) e E) <? eps) = true.
Proof.
  intros Hret Heps Hres. unfold kepler_equation_solver in Hret.
  apply keep_iterating_false_at_return in Hret. unfold keep_iterating in Hret.
  destruct (abs (kepler_function (np_mod M two_pi) e E) <? eps) eqn:Hlt; [reflexivity|].
  apply not_ltb_leb in Hlt; [congruence| |exact Heps].
  apply abs_is_number, Hres.
Qed.

End SolverPostcondition.

(** * The memoizing wrapper *)

Section CacheTheorems.

Context {K V : Type} {keys : DictKey K}.


Lemma same_key_sym (k k' : list K) : same_key k k' = same_key k' k.
Proof.
  revert k'. induction k as [|x k IH]; intros [|y k']; simpl; try reflexivity.
  rewrite (same_value_sym x y), IH. reflexivity.
Qed.

Lemma same_key_trans (k1 k2 k3 : list K) :
  same_key k1 k2 = true -> same_key k2 k3 = true -> same_key k1 k3 = true.
Proof.
  revert k2 k3. induction k1 as [|x k1 IH]; intros [|y k2] [|z k3]; simpl;
    try discriminate; try reflexivity.
  intros H12 H23. apply andb_prop in H12, H23.
  destruct H12 as [Hxy H12], H23 as [Hyz H23].
  rewrite (same_value_trans x y z Hxy Hyz), (IH k2 k3 H12 H23). reflexivity.
Qed.


Lemma cache_get_filter (k k' : list K) (entries : list (list K * V)) :
  same_key k' k = false ->
  cache_get k' (filter (fun entry => negb (same_key k (fst entry))) entries)
  = cache_get k' entries.
Proof.
  intros Hne. induction entries as [|[key value] entries IH]; simpl; [reflexivity|].
  destruct (same_key k key) eqn:Hk; simpl.
  - destruct (same_key k' key) eqn:Hk'; [|exact IH].
    rewrite same_key_sym in Hk.
    rewrite (same_key_trans k' key k Hk' Hk) in Hne. discriminate Hne.
  - destruct (same_key k' key); [reflexivity|exact IH].
Qed.

Lemma cache_get_set (k k' : list K) (v : V) (entries : list (list K * V)) :
  cache_get k' (cache_set k v entries)
  = if same_key k' k then Some v else cache_get k' entries.
Proof.
  unfold cache_set. cbn [cache_get].
  destruct (same_key k' k) eqn:Hk; [reflexivity|].
  apply cache_get_filter. exact Hk.
Qed.

(** One call on arguments that can be hashed, for a function that cannot
    tell apart the tuples that are one key: the answer of the function, one
    call counted, at most one jump, and a cache that still agrees with the
    function. *)
Lemma wrapper_step (function : list K -> result V) (arguments : list K) (m : memo K V) :
  respects_keys function ->
  forallb hashable arguments = true ->
  cache_agrees function m ->
  fst (cached_function_wrapper function arguments m) = function arguments
  /\ cache_agrees function (snd (cached_function_wrapper function arguments m))
  /\ calls (snd (cached_function_wrapper function arguments m)) = (calls m + 1)%Z
  /\ (jumps m <= jumps (snd (cached_function_wrapper function arguments m))
      <= jumps m + 1)%Z.
Proof.
  intros Hresp Hhash Hagree.
  assert (Hmiss :
            let p := match function arguments with
                     | Ret v =>
                         (Ret v,
                          {| cache := cache_set arguments v (cache m);
                             calls := calls m + 1; jumps := jumps m |})
                     | Raise e =>
                         (Raise e,
                          {| cache := cache m; calls := calls m + 1; jumps := jumps m |})
                     | Diverge =>
                         (Diverge,
                          {| cache := cache m; calls := calls m + 1; jumps := jumps m |})
                     end in
            fst p = function arguments
            /\ cache_agrees function (snd p)
            /\ calls (snd p) = (calls m + 1)%Z
            /\ (jumps m <= jumps (snd p) <= jumps m + 1)%Z).
  { destruct (function arguments) as [v|e|] eqn:Hf; cbn [fst snd cache calls jumps];
      (split; [reflexivity|]); (split; [|split; [reflexivity|lia]]).
    - intros k v'. cbn [cache]. rewrite cache_get_set.
      destruct (same_key k arguments) eqn:Hk; [|apply Hagree].
      intros Hv. rewrite (Hresp k arguments Hk). congruence.
    - exact Hagree.
    - exact Hagree. }
  unfold cached_function_wrapper. rewrite Hhash. cbn [cache calls jumps].
  destruct (cache_get arguments (cache m)) as [value|] eqn:Hget.
  - destruct arguments as [|a arguments]; [exact Hmiss|].
    cbn [fst snd cache calls jumps].
    split; [symmetry; apply Hagree; exact Hget|].
    split; [exact Hagree|]. split; [reflexivity|lia].
  - destruct arguments; exact Hmiss.
Qed.

(** A function that cannot tell apart the tuples of arguments that are one
    key of a dictionary, its every call going through the wrapper from the
    state the decorator sets up, on arguments that can be hashed: every
    call answers as the function does, [calls] counts the calls, and
    [jumps] is between 0 and [calls]. *)
Theorem cached_calls_transparent (function : list K -> result V)
    (argument_lists : list (list K)) :
  respects_keys function ->
  Forall (fun arguments => forallb hashable arguments = true) argument_lists ->
  fst (cached_calls function argument_lists memo_init)
  = map function argument_lists
  /\ calls (snd (cached_calls function argument_lists memo_init))
     = Z.of_nat (length argument_lists)
  /\ (0 <= jumps (snd (cached_calls function argument_lists memo_init))
      <= Z.of_nat (length argument_lists))%Z.
Proof.
  intros Hresp Hhash.
  assert (Hgen : forall m,
             cache_agrees function m ->
             fst (cached_calls function argument_lists m)
             = map function argument_lists
             /\ calls (snd (cached_calls function argument_lists m))
                = (calls m + Z.of_nat (length argument_lists))%Z
             /\ (jumps m
                 <= jumps (snd (cached_calls function argument_lists m))
                 <= jumps m + Z.of_nat (length argument_lists))%Z).
  { induction Hhash as [|arguments rest Harg _ IH]; intros m Hm.
    - cbn [cached_calls fst snd map length]. repeat split; lia.
    - cbn [cached_calls map length].
      destruct (wrapper_step function arguments m Hresp Harg Hm) as (Hr & Hm' & Hc & Hj).
      destruct (cached_function_wrapper function arguments m) as [r m'].
      cbn [fst snd] in *.
      destruct (IH m' Hm') as (Hrs & Hcs & Hjs).
      destruct (cached_calls function rest m') as [rs m''].
      cbn [fst snd] in *. subst r. rewrite Hrs. repeat split; lia. }
  assert (H0 : cache_agrees function (@memo_init K V))
    by (intros k v H; discriminate H).
  destruct (Hgen memo_init H0) as (Hr & Hc & Hj).
  cbn [memo_init calls jumps] in *. repeat split; try assumption; lia.
Qed.





(** A call without arguments is never answered from the cache: the function
    is called every time and no jump is counted. *)
Theorem cached_call_without_arguments (function : list K -> result V) (m : memo K V) :
  fst (cached_function_wrapper function [] m) = function []
  /\ jumps (snd (cached_function_wrapper function [] m)) = jumps m
  /\ calls (snd (cached_function_wrapper function [] m)) = (calls m + 1)%Z.
Proof.
  unfold cached_function_wrapper. cbn [forallb cache calls jumps].
  destruct (cache_get [] (cache m)); destruct (function []); cbn [fst snd jumps calls];
    repeat split; reflexivity.
Qed.

End CacheTheorems.

(** The sum of the numbers does not tell apart tuples that are one key. *)
Lemma sum_of_numbers_respects_keys : respects_keys sum_of_numbers.
Proof.
  intros a. induction a as [|x a IH]; intros [|y b]; simpl; try discriminate;
    [reflexivity|].
  intros H. apply andb_prop in H. destruct H as [Hxy Hab].
  specialize (IH b Hab). unfold sum_of_numbers in *. cbn [map fold_right].
  destruct (number_or_items_eq_dec (number_or_items x) (number_or_items y)) as [-> |];
    [|discriminate Hxy].
  congruence.
Qed.

(** The wrapper and the function it wraps can differ where the function
    tells apart arguments that are one key: after a call on [(1,)], the
    call on [(True,)] is answered with the result stored for [(1,)].  And a
    list among the arguments cannot be looked up at all. *)
Example cached_keys_collide :
  fst (cached_calls count_of_bools [[PyInt 1]; [PyBool true]] memo_init)
  = [Ret 0%Z; Ret 0%Z]
  /\ map count_of_bools [[PyInt 1]; [PyBool true]] = [Ret 0%Z; Ret 1%Z]
  /\ cached_function_wrapper sum_of_numbers [PyList [1; 2]%Z] memo_init
     = (Raise TypeError, {| cache := []; calls := 1; jumps := 0 |}).
Proof. repeat split. Qed.

(** * The parallel wrapper *)

Section ParallelTheorems.

Lemma take_sections_concat {A : Type} (sizes : list nat) (xs : list A) :
  concat (take_sections sizes xs) = firstn (list_sum sizes) xs.
Proof.
  revert xs. induction sizes as [|size sizes IH]; intros xs; simpl; [reflexivity|].
  rewrite IH, firstn_add. reflexivity.
Qed.

Lemma list_sum_repeat (x n : nat) : list_sum (repeat x n) = (n * x)%nat.
Proof. induction n as [|n IH]; simpl; [reflexivity|]. rewrite IH. reflexivity. Qed.

Lemma take_sections_length {A : Type} (sizes : list nat) (xs : list A) :
  length (take_sections sizes xs) = length sizes.
Proof.
  revert xs. induction sizes as [|size sizes IH]; intros xs; simpl; [reflexivity|].
  rewrite IH. reflexivity.
Qed.

(** [array_split] into [sections >= 1] parts: that many parts, which joined
    end to end are the array. *)
Lemma array_split_spec {A : Type} (xs : list A) (sections : nat) :
  (0 < sections)%nat ->
  exists parts,
    array_split xs sections = Ret parts
    /\ length parts = sections
    /\ concat parts = xs.
Proof.
  intros Hpos. destruct sections as [|n]; [lia|].
  unfold array_split. eexists. split; [reflexivity|].
  pose proof (Nat.mod_upper_bound (length xs) (S n) ltac:(lia)) as Hr.
  split.
  - rewrite take_sections_length, length_app, !repeat_length. lia.
  - rewrite take_sections_concat, list_sum_app, !list_sum_repeat.
    pose proof (Nat.div_mod_eq (length xs) (S n)) as Hdm.
    apply firstn_all2. nia.
Qed.

Lemma join_mapped_arrays (g : float -> float) (parts : list (list float)) :
  join_arrays (map (fun part => Array (map g part)) parts)
  = Ret (map g (concat parts)).
Proof.
  induction parts as [|part parts IH]; simpl; [reflexivity|].
  rewrite IH. cbn [bind]. rewrite map_app. reflexivity.
Qed.

(** For a function that acts on every element of its array by itself, the
    parallel wrapper returns what the function returns on the whole array:
    the parts are computed in their order and joined in that order. *)
Theorem parallel_execution_elementwise (pool_size : nat)
    (function : ndarray -> list float -> result ndarray) (g : float -> float)
    (x_array args : list float) :
  (0 < pool_size)%nat ->
  (forall part, function (Array part) args = Ret (Array (map g part))) ->
  parallel_execution pool_size function x_array args = function (Array x_array) args.
Proof.
  intros Hpos Hg. unfold parallel_execution.
  destruct (array_split_spec x_array pool_size Hpos) as (parts & -> & Hlen & Hcat).
  cbn [bind].
  assert (Hmap : mapM (fun part_of_data => function (Array part_of_data) args) parts
                 = Ret (map (fun part => Array (map g part)) parts)).
  { clear Hlen Hcat. induction parts as [|part parts IH]; simpl; [reflexivity|].
    rewrite Hg. cbn [bind]. rewrite IH. reflexivity. }
  rewrite Hmap. cbn [bind]. unfold concatenate.
  destruct parts as [|part parts]; [simpl in Hlen; lia|].
  cbn [map]. rewrite <- (map_cons (fun part => Array (map g part)) part parts).
  rewrite join_mapped_arrays. unfold fmap. cbn [bind].
  rewrite Hcat, Hg. reflexivity.
Qed.

End ParallelTheorems.

Lemma parallel_execution_witness :
  parallel_execution 4 (fun v _ => Ret (ufunc (fun x => x * x) v)) [1; 2; 3; 4; 5; 6] []
  = Ret (Array [1; 4; 9; 16; 25; 36]).
Proof.
  rewrite (parallel_execution_elementwise 4 _ (fun x => x * x) [1; 2; 3; 4; 5; 6] []).
  - reflexivity.
  - lia.
  - intros part. reflexivity.
Defined.

(** * The evolutional search: its box of bounds *)

Section EvolutionFacts.

Context {np : Numpy}.

Lemma leb_nonneg_trans (a x : float) :
  (0 <=? a) = true -> (a <=? x) = true -> (0 <=? x) = true.
Proof.
  rewrite !leb_spec. change (Prim2SF 0) with (S754_zero false).
  destruct (Prim2SF a) as [sa|sa| |sa ma ea], (Prim2SF x) as [sx|sx| |sx mx ex];
    unfold SFleb; simpl; try discriminate; try reflexivity;
    try (destruct sa; discriminate); try (destruct sx; discriminate);
    try (destruct sa, sx; simpl; intros; try discriminate; reflexivity).
Qed.

(** At most [0.999] is at most [1]. *)
Lemma leb_below_one (x : float) : (x <=? 0.999) = true -> (x <=? 1) = true.
Proof.
  rewrite !leb_spec.
  change (Prim2SF 0.999) with (S754_finite false 8998192055486251 (-53)).
  change (Prim2SF 1) with (S754_finite false 4503599627370496 (-52)).
  destruct (Prim2SF x) as [s|s| |s m e]; unfold SFleb;
    cbv beta iota delta [SFcompare]; try (intros H; exact H).
  destruct s; [intros _; reflexivity|].
  destruct (Z.compare_spec e (-53)) as [He | He | He];
    destruct (Z.compare_spec e (-52)) as [He' | He' | He'];
    intros H; try reflexivity; try discriminate H; exfalso; lia.
Qed.

Lemma list_times_length {A : Type} (xs : list A) (n : Z) :
  length (list_times xs n) = (Z.to_nat n * length xs)%nat.
Proof.
  unfold list_times. induction (Z.to_nat n) as [|k IH]; simpl; [reflexivity|].
  rewrite length_app, IH. reflexivity.
Qed.

(** The values of a box made of [n] copies of five bounds and then more:
    the values of the [k]-th five are inside the five bounds. *)
Lemma chunk_in_box {A B : Type} (R : A -> B -> Prop) (five : list B)
    (n k : nat) (rest : list B) (xs : list A) :
  length five = 5%nat -> (k < n)%nat ->
  Forall2 R xs (concat (repeat five n) ++ rest) ->
  Forall2 R (firstn 5 (skipn (5 * k) xs)) five.
Proof.
  intros Hfive. revert k xs. induction n as [|n IH]; intros k xs Hk H; [lia|].
  simpl in H. rewrite <- app_assoc in H.
  apply Forall2_app_inv_r in H. destruct H as (x1 & x2 & H1 & H2 & ->).
  pose proof (Forall2_length H1) as Hlen. rewrite Hfive in Hlen.
  destruct k as [|k].
  - change (5 * 0)%nat with 0%nat. cbn [skipn].
    rewrite firstn_app, Hlen, Nat.sub_diag, firstn_0, app_nil_r.
    rewrite firstn_all2 by lia. exact H1.
  - replace (5 * S k)%nat with (length x1 + 5 * k)%nat by lia.
    rewrite skipn_app, skipn_all2 by lia.
    replace (length x1 + 5 * k - length x1)%nat with (5 * k)%nat by lia.
    simpl. apply IH; [lia|exact H2].
Qed.

Lemma bounds_shape (number_of_planets number_of_telescopes : Z)
    (observations : ObservationsData.t) (bounds : list (float * float))
    (first_time : float) :
  bounds_of_all_free_paramters number_of_planets number_of_telescopes observations
  = Ret bounds ->
  py_min (ObservationsData.julian_times observations) = Ret first_time ->
  exists last_time span,
    bounds = list_times [(first_time, last_time); (0, span); (0, 2 * np_pi);
                         (1, 2000); (0.001, 0.999)] number_of_planets
             ++ list_times [(-25, 25)] number_of_telescopes.
Proof.
  unfold bounds_of_all_free_paramters. intros Hbounds Hmin.
  rewrite Hmin in Hbounds. cbn [bind] in Hbounds.
  destruct (py_max (ObservationsData.julian_times observations)) as [last_time| |];
    try discriminate Hbounds. cbn [bind] in Hbounds.
  destruct (py_max (ObservationsData.radial_velocities observations)) as [largest| |];
    try discriminate Hbounds. cbn [bind] in Hbounds.
  destruct (py_min (ObservationsData.radial_velocities observations)) as [smallest| |];
    try discriminate Hbounds. cbn [bind] in Hbounds.
  exists last_time, (largest - smallest). congruence.
Qed.

(** The box [evolutional_optimization] searches.  It has one bound for
    every parameter of the model, [5 * number_of_planets +
    number_of_telescopes]; and when the earliest observation time is not
    negative, every parameter vector inside the box gives every planet five
    parameters inside the bounds of [doppler_solver]: on a candidate of the
    search the solver runs its body, it does not answer with the sentinel. *)
Theorem evolution_box_inside_doppler_bounds
    (number_of_planets number_of_telescopes : Z) (observations : ObservationsData.t)
    (bounds : list (float * float)) (first_time : float) (candidate : list float) :
  (0 <= number_of_planets)%Z -> (0 <= number_of_telescopes)%Z ->
  bounds_of_all_free_paramters number_of_planets number_of_telescopes observations
  = Ret bounds ->
  py_min (ObservationsData.julian_times observations) = Ret first_time ->
  (0 <=? first_time) = true ->
  Forall2 (fun value b => (fst b <=? value) && (value <=? snd b) = true)
          candidate bounds ->
  Z.of_nat (length bounds) = (5 * number_of_planets + number_of_telescopes)%Z
  /\ forall planet_number,
      (0 <= planet_number < number_of_planets)%Z ->
      exists tau K omega P ecc,
        DopplerOptimizationModel.get_orbital_parameters
          (DopplerOptimizationModel.init number_of_planets number_of_telescopes
                                         candidate None)
          planet_number
        = [tau; K; omega; P; ecc]
        /\ within_doppler_bounds tau K omega P ecc = true
        /\ forall fuel time,
             doppler_solver fuel time [tau; K; omega; P; ecc]
             = doppler_solver_body fuel time tau K omega P ecc.
Proof.
  intros Hn HT Hbounds Hmin Hfirst Hbox.
  destruct (bounds_shape _ _ _ _ _ Hbounds Hmin) as (last_time & span & ->).
  set (five := [(first_time, last_time); (0, span); (0, 2 * np_pi);
                (1, 2000); (0.001, 0.999)]) in *.
  assert (Hlen : Z.of_nat (length (list_times five number_of_planets
                                   ++ list_times [(-25, 25)] number_of_telescopes))
                 = (5 * number_of_planets + number_of_telescopes)%Z).
  { rewrite length_app, !list_times_length. subst five. simpl length. lia. }
  split; [exact Hlen|].
  intros planet_number Hk.
  pose proof (Forall2_length Hbox) as Hcand.
  unfold DopplerOptimizationModel.get_orbital_parameters.
  cbn [DopplerOptimizationModel.orbital_parameters DopplerOptimizationModel.init].
  replace planet_number with (Z.of_nat (Z.to_nat planet_number)) by lia.
  rewrite slice_chunk by lia.
  assert (Hchunk : Forall2 (fun value b => (fst b <=? value) && (value <=? snd b) = true)
                           (firstn 5 (skipn (5 * Z.to_nat planet_number) candidate))
                           five).
  { unfold list_times in Hbox.
    apply (chunk_in_box _ five (Z.to_nat number_of_planets) (Z.to_nat planet_number)
                        (concat (repeat [(-25, 25)] (Z.to_nat number_of_telescopes))));
      [reflexivity|lia|exact Hbox]. }
  subst five.
  remember (firstn 5 (skipn (5 * Z.to_nat planet_number) candidate)) as chunk eqn:Hc.
  clear Hc Hbox Hcand Hlen.
  inversion Hchunk as [|tau b0 l0 l0' H0 Hr0]; subst.
  inversion Hr0 as [|K b1 l1 l1' H1 Hr1]; subst.
  inversion Hr1 as [|omega b2 l2 l2' H2 Hr2]; subst.
  inversion Hr2 as [|P b3 l3 l3' H3 Hr3]; subst.
  inversion Hr3 as [|ecc b4 l4 l4' H4 Hr4]; subst.
  inversion Hr4; subst.
  exists tau, K, omega, P, ecc. split; [reflexivity|].
  cbn [fst snd] in H0, H1, H2, H3, H4.
  apply andb_prop in H0, H1, H2, H3, H4.
  destruct H0 as [H0 _], H1 as [H1 _], H2 as [H2 H2'], H3 as [H3 _], H4 as [H4 H4'].
  assert (Hin : within_doppler_bounds tau K omega P ecc = true).
  { unfold within_doppler_bounds.
    rewrite (leb_nonneg_trans first_time tau Hfirst H0), H1, H2.
    replace (omega <=? two_pi) with true by (symmetry; exact H2').
    rewrite (leb_nonneg_trans 1 P eq_refl H3).
    rewrite (leb_nonneg_trans 0.001 ecc eq_refl H4).
    rewrite (leb_below_one ecc H4'). reflexivity. }
  split; [exact Hin|].
  intros fuel time. rewrite doppler_solver_guard, Hin. reflexivity.
Qed.

(** The model [evolutional_optimization] returns has the counts it was
    asked for and no uncertainties: asking it for them raises [TypeError]
    (they come with [gradient_optimization] only). *)
Theorem evolutional_model_has_no_uncertainties {de : ScipyGlobal} (fuel : nat)
    (number_of_planets number_of_telescopes : Z) (observations : ObservationsData.t)
    (population_size : Z) (model : DopplerOptimizationModel.t) :
  evolutional_optimization fuel number_of_planets number_of_telescopes observations
                           population_size
  = Ret model ->
  DopplerOptimizationModel.number_of_planets model = number_of_planets
  /\ DopplerOptimizationModel.number_of_telescopes model = number_of_telescopes
  /\ DopplerOptimizationModel.parameters_count model
     = Z.of_nat (length (DopplerOptimizationModel.orbital_parameters model))
  /\ (forall planet_number,
         DopplerOptimizationModel.get_orbital_uncertainties model planet_number
         = Raise TypeError)
  /\ DopplerOptimizationModel.get_offsets_uncersainties model = Raise TypeError.
Proof.
  unfold evolutional_optimization. intros H.
  destruct (bounds_of_all_free_paramters number_of_planets number_of_telescopes
                                         observations) as [bounds| |];
    try discriminate H. cbn [bind] in H.
  destruct (differential_evolution _ bounds population_size) as [found| |];
    try discriminate H. cbn [bind] in H.
  injection H as <-. repeat split.
Qed.

End EvolutionFacts.

(** * The edge cases at concrete inputs *)

(** A NaN eccentricity: the solver returns the reduced mean anomaly. *)
Lemma kepler_solver_on_nan_witness :
  kepler_equation_solver (np := Series.numpy) 10 1 nan 1e-10
  = Ret (np_mod (Numpy := Series.numpy) 1 two_pi).
Proof.
  apply (@kepler_solver_on_nan Series.numpy 10 1 nan 1e-10).
  right. reflexivity.
Defined.

(** A NaN half amplitude: the sentinel at each of the two times. *)
Lemma doppler_solver_nan_parameter_witness :
  doppler_solver (np := Series.numpy) 10 (Array [1; 2]) [0; nan; 0; 1; 0.5]
  = Ret (Array [out_of_bound_default; out_of_bound_default]).
Proof.
  apply (@doppler_solver_nan_parameter Series.numpy 10 [1; 2] 0 nan 0 1 0.5 nan).
  - right. left. reflexivity.
  - reflexivity.
Defined.

(** Three parameters instead of five: the sentinel; six: a [TypeError]. *)
Lemma doppler_solver_parameter_count_witness :
  doppler_solver (np := Series.numpy) 10 (Array [1; 2]) [0; 50; 1]
  = Ret (Array [out_of_bound_default; out_of_bound_default])
  /\ doppler_solver (np := Series.numpy) 10 (Array [1; 2]) [0; 50; 1; 10; 0.25; 3]
     = Raise TypeError.
Proof.
  split.
  - apply (@doppler_solver_parameter_count Series.numpy 10 [1; 2] [0; 50; 1]).
    simpl. lia.
  - apply (@doppler_solver_parameter_count Series.numpy 10 [1; 2] [0; 50; 1; 10; 0.25; 3]).
    simpl. lia.
Defined.

(** One body and two instruments: the ids 0, 1 and -1 find their offsets,
    the id 2 does not. *)
Lemma offsets_of_instruments_lookup_witness :
  let model := DopplerOptimizationModel.init 1 2 [0; 50; 1; 10; 0.25; 1.5; -2.5] None in
  DopplerOptimizationModel.offsets_of_instruments model [0; 1; -1]%Z
  = Ret (Array [1.5; -2.5; -2.5])
  /\ DopplerOptimizationModel.offsets_of_instruments model [0; 2]%Z = Raise IndexError.
Proof.
  intros model. split.
  - apply (proj1 (offsets_of_instruments_lookup 1 2 [0; 50; 1; 10; 0.25; 1.5; -2.5]
                    [0; 1; -1]%Z ltac:(simpl; lia))).
    repeat constructor; lia.
  - apply (proj2 (offsets_of_instruments_lookup 1 2 [0; 50; 1; 10; 0.25; 1.5; -2.5]
                    [0; 2]%Z ltac:(simpl; lia))).
    apply Exists_cons_tl, Exists_cons_hd. right. lia.
Defined.

(** The uncertainties of two bodies and two instruments. *)
Lemma uncertainties_round_trip_witness :
  let params := [0; 50; 1; 10; 0.25; 3; 20; 2; 100; 0.5; 1.5; -2.5] in
  let uncertainties := [0.5; 1; 0.25; 2; 0.125; 0.5; 1; 0.25; 2; 0.125; 0.75; 0.75] in
  let model := DopplerOptimizationModel.init 2 2 params (Some uncertainties) in
  exists chunks offsets,
    mapM (DopplerOptimizationModel.get_orbital_uncertainties model) (Py.xrange 2)
    = Ret chunks
    /\ DopplerOptimizationModel.get_offsets_uncersainties model = Ret offsets
    /\ Forall (fun chunk => length chunk = 5%nat) chunks
    /\ length offsets = Z.to_nat 2
    /\ concat chunks ++ offsets = uncertainties.
Proof.
  intros params uncertainties.
  apply (uncertainties_round_trip 2 2 params uncertainties); [lia | lia | reflexivity].
Defined.

(** The file of two rows. *)
Lemma load_data_shape_witness :
  exists observations,
    ObservationsData.load_data (np := Series.numpy) two_instruments
                               true false false true 0.0
    = Ret observations
    /\ length (ObservationsData.julian_times observations) = length two_instruments
    /\ length (ObservationsData.radial_velocities observations) = length two_instruments
    /\ length (ObservationsData.uncertainties observations) = length two_instruments
    /\ length (ObservationsData.ids_of_telescopes observations) = length two_instruments
    /\ ObservationsData.count observations = Z.of_nat (length two_instruments)
    /\ (1 <= ObservationsData.telescopes_count observations
           <= ObservationsData.count observations)%Z.
Proof.
  eexists. split; [vm_compute; reflexivity|].
  apply (@load_data_shape Series.numpy two_instruments true false false true 0.0).
  vm_compute. reflexivity.
Defined.



(** The box of one planet and one instrument on the six observations, and
    a candidate inside it. *)
Lemma evolution_box_witness :
  exists tau K omega P ecc,
    DopplerOptimizationModel.get_orbital_parameters
      (DopplerOptimizationModel.init 1 1 [2; 15; 1; 10; 0.5; 3] None) 0
    = [tau; K; omega; P; ecc]
    /\ within_doppler_bounds tau K omega P ecc = true
    /\ forall fuel time,
         doppler_solver (np := Series.numpy) fuel time [tau; K; omega; P; ecc]
         = doppler_solver_body (np := Series.numpy) fuel time tau K omega P ecc.
Proof.
  apply (proj2 (@evolution_box_inside_doppler_bounds Series.numpy 1 1 six_observations
                  [(1, 6); (0, 30); (0, 2 * np_pi); (1, 2000); (0.001, 0.999); (-25, 25)]
                  1 [2; 15; 1; 10; 0.5; 3]
                  ltac:(lia) ltac:(lia) eq_refl eq_refl eq_refl
                  ltac:(repeat constructor))).
  lia.
Defined.

(** The search on the six observations: its model has no uncertainties. *)
Lemma evolutional_model_witness :
  exists model,
    evolutional_optimization (np := Series.numpy) (de := midpoint_search)
                             50 1 1 six_observations 15
    = Ret model
    /\ DopplerOptimizationModel.number_of_planets model = 1%Z
    /\ DopplerOptimizationModel.number_of_telescopes model = 1%Z
    /\ DopplerOptimizationModel.parameters_count model
       = Z.of_nat (length (DopplerOptimizationModel.orbital_parameters model))
    /\ (forall planet_number,
           DopplerOptimizationModel.get_orbital_uncertainties model planet_number
           = Raise TypeError)
    /\ DopplerOptimizationModel.get_offsets_uncersainties model = Raise TypeError.
Proof.
  eexists. split; [vm_compute; reflexivity|].
  apply (@evolutional_model_has_no_uncertainties Series.numpy midpoint_search
           50 1 1 six_observations 15).
  vm_compute. reflexivity.
Defined.

(** The value the solver returns for [M = 1.0], [e = 0.5] with the default
    tolerance. *)
Lemma returned_anomaly_witness :
  (abs (kepler_function (np := Series.numpy)
                        (np_mod (Numpy := Series.numpy) 1 two_pi) 0.5 kepler_example)
   <? epsilon_default) = true.
Proof.
  apply (@returned_anomaly_meets_tolerance Series.numpy 4 1 0.5 epsilon_default
                                           kepler_example).
  - vm_compute. reflexivity.
  - unfold is_number. vm_compute. discriminate.
  - unfold is_number. vm_compute. discriminate.
Defined.

(** The file of two lines loads. *)
Lemma load_data_succeeds_witness :
  exists observations,
    ObservationsData.load_data_default (np := Series.numpy) two_instruments
    = Ret observations.
Proof.
  apply (proj2 (@load_data_succeeds_iff Series.numpy two_instruments
                  ltac:(repeat constructor; intros x i Hx Hi; injection Hx as <-;
                        vm_compute in Hi; injection Hi as <-; reflexivity))).
  split; [simpl; lia|]. split.
  - exists 4%nat. repeat constructor.
  - repeat constructor; eexists; (split; [reflexivity|]); vm_compute; exact I.
Defined.

(** Four calls, the second on arguments that are one key with those of the
    first. *)
Lemma cached_calls_transparent_witness :
  let argument_lists := [[PyInt 1; PyInt 2]; [PyBool true; PyInt 2]; []; [PyInt 5]] in
  fst (cached_calls sum_of_numbers argument_lists memo_init)
  = map sum_of_numbers argument_lists
  /\ calls (snd (cached_calls sum_of_numbers argument_lists memo_init)) = 4%Z
  /\ (0 <= jumps (snd (cached_calls sum_of_numbers argument_lists memo_init)) <= 4)%Z.
Proof.
  intros argument_lists.
  apply (cached_calls_transparent sum_of_numbers argument_lists).
  - exact sum_of_numbers_respects_keys.
  - repeat constructor.
Defined.

